(** * Chrono calculator: a shallow embedding of [main.py] and
    [calculator/tasks.py], and the properties of the estimator, the
    fallback and the delivery loop.

    Python values are modelled as follows.
    - [str] is a list of Unicode code points ([N]); an argument that may be
      [None] is an [option str].
    - [int] is [Z]; [float] is the kernel's binary64 float ([PrimFloat]),
      which is the IEEE 754 format and rounding CPython uses.
    - a [dict] is an association list kept in insertion order (the order
      Python iterates it in); a [set] is a list used only through
      membership and integer sums, which do not depend on its order.
    - an exception is a value of [exn], and a call that may raise returns
      a [result]. *)

From Stdlib Require Import ZArith NArith List Bool Ascii String Floats Sorted Lia.
Import ListNotations.

Set Warnings "-inexact-float".

Local Open Scope Z_scope.

(** ** Strings *)

Definition str : Type := list N.

(** A literal of the source, as its code points. *)
Definition lit (s : string) : str := map N_of_ascii (list_ascii_of_string s).

Fixpoint str_eqb (a b : str) : bool :=
  match a, b with
  | [], [] => true
  | x :: a', y :: b' => N.eqb x y && str_eqb a' b'
  | _, _ => false
  end.

(** [x in s] for a list standing for a set (or the keys of a dict). *)
Definition mem (x : str) (s : list str) : bool := existsb (str_eqb x) s.

(** [len(s)] *)
Definition len {A} (l : list A) : Z := Z.of_nat (List.length l).

(** What the interpreter's Unicode tables decide: the code points
    [str.strip()] removes, the code points the regex class [\w] matches in
    a [str] pattern, and [str.lower()] (which is not character-wise in
    general, so it is a function on strings). *)
Class Unicode : Type := {
  isspace : N -> bool;
  isword : N -> bool;
  lower : str -> str
}.

(** The tables restricted to ASCII, where every other code point is
    neither white space nor a word character and is left alone by
    [lower]. It is the instance the examples are evaluated with. *)
Definition ascii_isspace (c : N) : bool :=
  ((9 <=? c) && (c <=? 13) || (28 <=? c) && (c <=? 32))%N.

Definition ascii_isword (c : N) : bool :=
  ((48 <=? c) && (c <=? 57) || (65 <=? c) && (c <=? 90)
   || (c =? 95) || (97 <=? c) && (c <=? 122))%N.

Definition ascii_lower_char (c : N) : N :=
  (if (65 <=? c) && (c <=? 90) then c + 32 else c)%N.

#[export] Instance ascii_tables : Unicode := {
  isspace := ascii_isspace;
  isword := ascii_isword;
  lower := map ascii_lower_char
}.

Fixpoint lstrip (sp : N -> bool) (s : str) : str :=
  match s with
  | [] => []
  | c :: s' => if sp c then lstrip sp s' else s
  end.

(** [s.strip()] *)
Definition strip `{Unicode} (s : str) : str :=
  rev (lstrip isspace (rev (lstrip isspace s))).

(** The maximal runs of characters satisfying [p], left to right: what
    [re.findall] returns for a pattern [[...]+] over one character class.
    [acc] is the run being read, last character first. *)
Fixpoint runs (p : N -> bool) (acc : str) (s : str) : list str :=
  match s with
  | [] => match acc with [] => [] | _ => [rev acc] end
  | c :: s' =>
      if p c then runs p (c :: acc) s'
      else match acc with
           | [] => runs p [] s'
           | _ => rev acc :: runs p [] s'
           end
  end.

(** [re.findall(r'\b\w+\b', s)]: a greedy [\w+] that starts at a word
    boundary and must end at one matches exactly a maximal run of word
    characters. *)
Definition findall_words `{Unicode} (s : str) : list str := runs isword [] s.

Definition is_vowel (c : N) : bool :=
  existsb (N.eqb c) (lit "aeiouy").

(** [re.findall(r'[aeiouy]+', w)] *)
Definition findall_vowel_groups (w : str) : list str := runs is_vowel [] w.

Definition is_terminator (c : N) : bool :=
  existsb (N.eqb c) (lit ".!?").

(** [re.split(r'[.!?]+', s)]: the pieces between the maximal runs of
    terminators, the empty pieces at both ends included. [insep] says that
    the previous character was a terminator. *)
Fixpoint split_go (acc : str) (insep : bool) (s : str) : list str :=
  match s with
  | [] => [rev acc]
  | c :: s' =>
      if is_terminator c then
        if insep then split_go [] true s' else rev acc :: split_go [] true s'
      else split_go (c :: acc) false s'
  end.

Definition split_sentences (s : str) : list str := split_go [] false s.

(** ** Numbers *)

(** [float(z)] for a Python [int]: the nearest binary64 value, ties to
    even. (CPython raises [OverflowError] from [2^1024] on, where this
    gives infinity; no count of characters of a text comes near.) *)
Definition float_of_int (z : Z) : float :=
  SF2Prim (binary_normalize prec emax z 0 false).

(** [a / b] on two [int]s. CPython returns the correctly rounded quotient,
    which is the quotient of the two conversions whenever both operands
    are below [2^53] in magnitude. *)
Definition int_truediv (a b : Z) : float :=
  (float_of_int a / float_of_int b)%float.

(** [sum(...)] over [int]s. *)
Definition sum_int (l : list Z) : Z := fold_left Z.add l 0.

(** [max(a, b)] and [min(a, b)] of the builtins keep the first argument
    unless the second is strictly greater (smaller). *)
Definition max_int (a b : Z) : Z := if a <? b then b else a.

Definition max_float (a b : float) : float := if (a <? b)%float then b else a.

Definition min_float (a b : float) : float := if (b <? a)%float then b else a.

(** ** Dictionaries *)

Section Dict.
Context {K V : Type} (keq : K -> K -> bool).

(** [d.get(k, default)] *)
Fixpoint dict_get (d : list (K * V)) (k : K) (default : V) : V :=
  match d with
  | [] => default
  | (k', v) :: d' => if keq k' k then v else dict_get d' k default
  end.

(** [d[k] = v]: an existing key keeps its place, a new one goes last. *)
Fixpoint dict_set (d : list (K * V)) (k : K) (v : V) : list (K * V) :=
  match d with
  | [] => [(k, v)]
  | (k', v') :: d' =>
      if keq k' k then (k', v) :: d' else (k', v') :: dict_set d' k v
  end.
End Dict.

(** [Counter(words)]: each word with its number of occurrences, in the
    order of first occurrence. *)
Definition Counter (words : list str) : list (str * Z) :=
  fold_left (fun c w => dict_set str_eqb c w (dict_get str_eqb c w 0 + 1))
            words [].

(** [max(scores, key=scores.get)]: the first key whose value no later
    value exceeds; [None] stands for the [ValueError] on an empty dict. *)
Fixpoint max_from (best : Z * float) (rest : list (Z * float)) : Z :=
  match rest with
  | [] => fst best
  | x :: rest' =>
      if (snd best <? snd x)%float then max_from x rest'
      else max_from best rest'
  end.

Definition max_by_value (scores : list (Z * float)) : option Z :=
  match scores with
  | [] => None
  | x :: rest => Some (max_from x rest)
  end.

(** ** Results and exceptions *)

Inductive exn : Type :=
| TypeError
| ConnectionError
| OtherException
| Retry (countdown : Z)
| MaxRetriesExceededError.

(** [str(e)], as far as it is told apart here: the name of the
    exception. *)
Definition str_of_exn (e : exn) : string :=
  match e with
  | TypeError => "TypeError"
  | ConnectionError => "ConnectionError"
  | OtherException => "Exception"
  | Retry _ => "Retry"
  | MaxRetriesExceededError => "MaxRetriesExceededError"
  end.

Inductive result (A : Type) : Type :=
| Ret (a : A)
| Raise (e : exn).
Arguments Ret {A} a.
Arguments Raise {A} e.

(** ** The estimator ([main.py] and [calculator/tasks.py] hold the same
    three functions, up to the text of the log messages) *)

Definition ARCHAIC_VOCABULARY : list (Z * list str) :=
  [ (1300, map lit ["thou"; "thee"; "thy"; "hath"; "dost"; "ye"; "verily";
                    "betwixt"; "regin"; "rex"; "anno"; "domini"]%string);
    (1500, map lit ["shall"; "unto"; "upon"; "lord"; "king"; "majesty";
                    "whereas"; "hereby"; "aforesaid"]%string);
    (1700, map lit ["constitution"; "liberty"; "property"; "reason";
                    "nature"; "society"; "contract"; "federal"]%string);
    (1900, map lit ["technology"; "system"; "data"; "analysis"; "program";
                    "network"; "computer"; "digital"]%string) ].

(** [not text or len(text.strip()) < n], on an argument that may be
    [None]: [not text] holds of [None] and of the empty string. *)
Definition too_short `{Unicode} (text : option str) (n : Z) : bool :=
  match text with
  | None => true
  | Some s => match s with [] => true | _ => len (strip s) <? n end
  end.

Definition safe_calculate_flesch_reading_ease `{Unicode}
    (text : option str) : float :=
  match text with
  | None => 50
  | Some s =>
      if too_short text 10 then 50
      else
        let sentences := split_sentences s in
        let sentences := filter (fun p => 1 <? len (strip p)) sentences in
        let num_sentences := max_int (len sentences) 1 in
        let words := findall_words s in
        let num_words := max_int (len words) 1 in
        let num_syllables :=
          sum_int (map (fun w => len (findall_vowel_groups (lower w))) words) in
        let score :=
          (206.835 - (1.015 * int_truediv num_words num_sentences)
           - (84.6 * int_truediv num_syllables num_words))%float in
        max_float 0 (min_float 100 score)
  end.

Definition safe_cosine_similarity (vec1 vec2 : list (str * Z)) : float :=
  let intersection :=
    filter (fun x => mem x (map fst vec2)) (map fst vec1) in
  match intersection with
  | [] => 0%float
  | _ =>
      let numerator :=
        sum_int (map (fun x => dict_get str_eqb vec1 x 0
                               * dict_get str_eqb vec2 x 0) intersection) in
      let sum1 := sum_int (map (fun x => dict_get str_eqb vec1 x 0 ^ 2)
                               (map fst vec1)) in
      let sum2 := sum_int (map (fun x => dict_get str_eqb vec2 x 0 ^ 2)
                               (map fst vec2)) in
      let denominator :=
        (sqrt (float_of_int sum1) * sqrt (float_of_int sum2))%float in
      if (0 <? denominator)%float
      then (float_of_int numerator / denominator)%float
      else 0%float
  end.

(** The loop over [ARCHAIC_VOCABULARY.items()] that fills [scores]. *)
Definition similarity_scores (text_vector : list (str * Z))
    : list (Z * float) :=
  fold_left
    (fun scores '(year, vocab) =>
       let vocab_vector := map (fun w => (w, 1)) vocab in
       let similarity := safe_cosine_similarity text_vector vocab_vector in
       dict_set Z.eqb scores year (similarity * 1000)%float)
    ARCHAIC_VOCABULARY [].

(** The readability adjustment of [scores]. *)
Definition adjust_scores (readability : float) (scores : list (Z * float))
    : list (Z * float) :=
  if (readability <? 40)%float then
    let scores :=
      dict_set Z.eqb scores 1300 (dict_get Z.eqb scores 1300%Z 0 + 500)%float in
    dict_set Z.eqb scores 1500 (dict_get Z.eqb scores 1500%Z 0 + 300)%float
  else if (70 <? readability)%float then
    dict_set Z.eqb scores 1900 (dict_get Z.eqb scores 1900%Z 0 + 500)%float
  else scores.

(** [set(w for vocab in ARCHAIC_VOCABULARY.values() for w in vocab)] *)
Definition archaic_words : list str :=
  fold_left (fun s w => if mem w s then s else s ++ [w])
            (flat_map snd ARCHAIC_VOCABULARY) [].

(** [analyze_text_chronology(text)]. The first statement formats
    [len(text)] into the log message, before the guard is reached, so
    [None] raises there. The test [if not scores] is the [None] of
    [max_by_value]. *)
Definition analyze_text_chronology `{Unicode} (text : option str)
    : result (Z * Z) :=
  match text with
  | None => Raise TypeError
  | Some s =>
      if too_short text 5 then Ret (1500, 0)
      else
        let words := findall_words (lower s) in
        match words with
        | [] => Ret (1500, 0)
        | _ =>
            let text_vector := Counter words in
            let scores := similarity_scores text_vector in
            let readability := safe_calculate_flesch_reading_ease text in
            let scores := adjust_scores readability scores in
            match max_by_value scores with
            | None => Ret (1500, 0)
            | Some best_year =>
                let total_matches :=
                  sum_int (map (fun _ => 1)
                               (filter (fun word => mem word archaic_words)
                                       words)) in
                Ret (best_year, total_matches)
            end
        end
  end.

(** ** Delivery to the collector *)

(** The JSON body of the POST, the same in both front ends. *)
Record result_data : Type := {
  rd_research_request_id : Z;
  result_from_year : Z;
  result_to_year : Z;
  rd_matched_layers : Z;
  rd_auth_token : str
}.

(** What one POST can do: answer with a status code, fail to connect (a
    [requests.ConnectionError], or one of httpx's transport errors, which
    are [httpx.HTTPError]s), or raise anything else. *)
Inductive post_outcome : Type :=
| Responded (status_code : Z)
| ConnectionFailed
| OtherFailure.

(** ** The synchronous front end ([main.py]) *)

Module Main.

Record ChronoRequest : Type := {
  research_request_id : Z;
  auth_token : str;
  text_for_analysis : option str;
  purpose : option str
}.

Record ChronoResult : Type := {
  status : string;
  year : option Z;
  matched_layers : option Z;
  error : option string
}.

(** The endpoint answers with a [ChronoResult] or raises
    [HTTPException(status_code=...)]. *)
Inductive response : Type :=
| Body (r : ChronoResult)
| HTTPException (status_code : Z).

Inductive log_line : Type :=
| Accepted
| NetworkError
| UnexpectedError.

(** [not text or not text.strip()] *)
Definition blank `{Unicode} (text : option str) : bool :=
  match text with
  | None => true
  | Some s =>
      match s with
      | [] => true
      | _ => match strip s with [] => true | _ => false end
      end
  end.

(** [resp.raise_for_status()] of httpx raises [HTTPStatusError] unless
    the status is a 2xx. *)
Definition is_success (status_code : Z) : bool :=
  (200 <=? status_code) && (status_code <? 300).

(** The inner [try] of [calculate_chrono]: one POST, every exception
    logged and dropped. *)
Definition send (o : post_outcome) : log_line :=
  match o with
  | Responded code => if is_success code then Accepted else NetworkError
  | ConnectionFailed => NetworkError
  | OtherFailure => UnexpectedError
  end.

(** [calculate_chrono(request)]: the answer to the caller, the bodies
    POSTed to the collector and what the delivery logged. [collector]
    is the collector's behaviour on a body. The five seconds slept before
    the estimation leave no trace in any of the three. *)
Definition calculate_chrono `{Unicode} (AUTH_TOKEN_EXPECTED : str)
    (collector : result_data -> post_outcome) (request : ChronoRequest)
    : response * list result_data * list log_line :=
  if negb (str_eqb (auth_token request) AUTH_TOKEN_EXPECTED) then
    (HTTPException 403, [], [])
  else if blank (text_for_analysis request) then
    (Body {| status := "skipped"; year := None; matched_layers := None;
             error := Some "no text"%string |}, [], [])
  else
    match analyze_text_chronology (text_for_analysis request) with
    | Raise e =>
        (Body {| status := "error"; year := None; matched_layers := None;
                 error := Some (str_of_exn e) |}, [], [])
    | Ret (calculated_year, matched_count) =>
        let data :=
          {| rd_research_request_id := research_request_id request;
             result_from_year := calculated_year;
             result_to_year := calculated_year + 50;
             rd_matched_layers := matched_count;
             rd_auth_token := AUTH_TOKEN_EXPECTED |} in
        (Body {| status := "success"; year := Some calculated_year;
                 matched_layers := Some matched_count; error := None |},
         [data], [send (collector data)])
    end.

End Main.

(** ** The Celery task ([calculator/tasks.py]) *)

Module Tasks.

(** The values [random.choice] and [random.randint] draw in one
    execution of the task. Any two naturals stand for a draw, and every
    draw of the generator is one of them. *)
Record draws : Type := { choice_draw : nat; randint_draw : nat }.

(** [random.choice(seq)] *)
Definition random_choice (seq : list Z) (k : nat) : Z :=
  nth (k mod List.length seq) seq 0.

(** [random.randint(a, b)] *)
Definition random_randint (a b : Z) (k : nat) : Z :=
  a + Z.of_nat k mod (b - a + 1).

(** The dict the task returns. *)
Inductive task_return : Type :=
| Success (request_id : Z)
| Failed.

(** [max_retries] of the [shared_task] decorator. *)
Definition task_max_retries : Z := 3.

(** [self.retry(countdown=c)] in a worker, for a task whose request has
    been retried [retries] times: Celery re-queues the task to run again
    after [c] seconds and raises [Retry], or raises
    [MaxRetriesExceededError] when [retries + 1] exceeds the task's
    [max_retries]. Either way the call raises. *)
Definition self_retry (retries countdown : Z) : exn :=
  if task_max_retries <? retries + 1 then MaxRetriesExceededError
  else Retry countdown.

(** The local [max_retries] of the delivery loop. *)
Definition max_retries : Z := 3.

(** [range(n)] *)
Definition range (n : Z) : list Z := map Z.of_nat (seq 0 (Z.to_nat n)).

(** The [for attempt in range(max_retries)] loop. [net i] is the outcome
    of the [i]-th POST the task makes over all its executions, and
    [sent] counts the POSTs made so far. Returns how the loop ends and
    the new count. *)
Fixpoint post_loop (retries research_request_id : Z)
    (net : nat -> post_outcome) (sent : nat) (attempts : list Z)
    : result task_return * nat :=
  match attempts with
  | [] => (Ret Failed, sent)
  | attempt :: rest =>
      match net sent with
      | Responded status_code =>
          if status_code =? 200 then (Ret (Success research_request_id), S sent)
          else post_loop retries research_request_id net (S sent) rest
      | ConnectionFailed =>
          if attempt <? max_retries - 1
          then (Raise (self_retry retries 5), S sent)
          else (Raise ConnectionError, S sent)
      | OtherFailure =>
          if attempt <? max_retries - 1
          then (Raise (self_retry retries 5), S sent)
          else (Raise OtherException, S sent)
      end
  end.

(** The result after the fallback. *)
Definition fallback (rng : draws) (calculated : Z * Z) : Z * Z :=
  let '(calculated_year, matched_count) := calculated in
  if matched_count =? 0
  then (random_choice [1300; 1500; 1700; 1900] (choice_draw rng),
        random_randint 1 5 (randint_draw rng))
  else (calculated_year, matched_count).

(** One execution of [calculate_chrono_async]: how it ends, the bodies
    it POSTed, and the count of POSTs. The outer [except] logs and
    re-raises. *)
Definition calculate_chrono_async `{Unicode} (AUTH_TOKEN : str)
    (retries research_request_id : Z) (text : option str) (rng : draws)
    (net : nat -> post_outcome) (sent : nat)
    : result task_return * list result_data * nat :=
  match analyze_text_chronology text with
  | Raise e => (Raise e, [], sent)
  | Ret calculated =>
      let '(calculated_year, matched_count) := fallback rng calculated in
      let data :=
        {| rd_research_request_id := research_request_id;
           result_from_year := calculated_year;
           result_to_year := calculated_year + 50;
           rd_matched_layers := matched_count;
           rd_auth_token := AUTH_TOKEN |} in
      let '(r, sent') :=
        post_loop retries research_request_id net sent (range max_retries) in
      (r, repeat data (sent' - sent), sent')
  end.

(** What a worker observes of a task from its first execution to its
    end: the final outcome, every body POSTed, in order, and the
    countdowns waited between executions. *)
Record run : Type := {
  outcome : result task_return;
  posted : list result_data;
  countdowns : list Z
}.

(** The worker: it executes the task, and on [Retry] executes it again
    with [retries + 1] after the countdown. [rng e] are the draws of the
    execution whose request has been retried [e] times. [fuel] bounds
    the number of executions. *)
Fixpoint worker `{Unicode} (fuel : nat) (AUTH_TOKEN : str)
    (retries research_request_id : Z) (text : option str)
    (rng : Z -> draws) (net : nat -> post_outcome) (sent : nat)
    : option run :=
  match fuel with
  | O => None
  | S fuel' =>
      let '(r, bodies, sent') :=
        calculate_chrono_async AUTH_TOKEN retries research_request_id text
                               (rng retries) net sent in
      match r with
      | Raise (Retry countdown) =>
          match worker fuel' AUTH_TOKEN (retries + 1) research_request_id
                       text rng net sent' with
          | None => None
          | Some later =>
              Some {| outcome := outcome later;
                      posted := bodies ++ posted later;
                      countdowns := countdown :: countdowns later |}
          end
      | _ => Some {| outcome := r; posted := bodies; countdowns := [] |}
      end
  end.

(** [calculate_chrono_async.delay(request_id, text, purpose)]: the task
    from its first execution on. One execution and [task_max_retries]
    retries are all a worker grants. *)
Definition delay `{Unicode} (AUTH_TOKEN : str) (research_request_id : Z)
    (text : option str) (rng : Z -> draws) (net : nat -> post_outcome)
    : option run :=
  worker (S (Z.to_nat task_max_retries)) AUTH_TOKEN 0 research_request_id
         text rng net 0.

End Tasks.

(** ** The Django view ([calculator/views.py]) *)

Module Views.

(** [serializer.validated_data] of a [ChronoRequestSerializer]: the two
    required fields, and the two optional ones, whose keys may be
    missing. *)
Record validated_data : Type := {
  research_request_id : Z;
  auth_token : str;
  text_for_analysis : option str;
  purpose : option str
}.

(** The four answers of the view: 400 with the serializer's errors, 403,
    400 with status "skipped", and 202 with status "processing". *)
Inductive response : Type :=
| Invalid
| Forbidden
| Skipped
| Processing (research_request_id : Z).

(** The arguments of [calculate_chrono_async.delay]. *)
Record launch : Type := {
  launch_request_id : Z;
  launch_text : str;
  launch_purpose : option str
}.

(** [calculate_chrono(request)]: the answer, and the task it launched,
    if any. [validated] is [None] when [serializer.is_valid()] is false.
    A missing text is read as the empty string by
    [validated_data.get('text_for_analysis', '')]. *)
Definition calculate_chrono `{Unicode} (AUTH_TOKEN : str)
    (validated : option validated_data) : response * option launch :=
  match validated with
  | None => (Invalid, None)
  | Some data =>
      if negb (str_eqb (auth_token data) AUTH_TOKEN) then (Forbidden, None)
      else
        let request_id := research_request_id data in
        let text := match text_for_analysis data with
                    | Some t => t
                    | None => []
                    end in
        if Main.blank (Some text) then (Skipped, None)
        else (Processing request_id,
              Some {| launch_request_id := request_id;
                      launch_text := text;
                      launch_purpose := purpose data |})
  end.

End Views.

(** ** The health checks (the same in [main.py] and in the view) *)

(** [s[:n]] *)
Definition slice_to (n : nat) (s : str) : str := firstn n s.

Record health : Type := {
  health_status : str;
  health_main_service : str;
  health_token : str
}.

Definition health_check (MAIN_SERVICE_URL AUTH_TOKEN : str) : health :=
  {| health_status := lit "healthy";
     health_main_service := MAIN_SERVICE_URL;
     health_token := slice_to 4 AUTH_TOKEN ++ lit "..." |}.

(** ** What the claims are stated with *)

(** The anchor years, in the order of [ARCHAIC_VOCABULARY]. *)
Definition anchors : list Z := [1300; 1500; 1700; 1900].

(** Membership in the union of the vocabularies, one era at a time. *)
Definition in_some_vocabulary (w : str) : bool :=
  existsb (fun era : Z * list str => mem w (snd era)) ARCHAIC_VOCABULARY.

(** The vocabulary of an era, and the score the loop stores for it. *)
Definition vocabulary (year : Z) : list str :=
  dict_get Z.eqb ARCHAIC_VOCABULARY year [].

Definition era_score (text_vector : list (str * Z)) (year : Z) : float :=
  (safe_cosine_similarity text_vector
                          (map (fun w => (w, 1%Z)) (vocabulary year))
   * 1000)%float.

(** The score map [max] is taken over. *)
Definition score_map `{Unicode} (s : str) : list (Z * float) :=
  adjust_scores (safe_calculate_flesch_reading_ease (Some s))
                (similarity_scores (Counter (findall_words (lower s)))).

(** The body the task POSTs for a result [(year, matched)]. *)
Definition data_of (AUTH_TOKEN : str) (research_request_id : Z)
    (calculated : Z * Z) : result_data :=
  {| rd_research_request_id := research_request_id;
     result_from_year := fst calculated;
     result_to_year := fst calculated + 50;
     rd_matched_layers := snd calculated;
     rd_auth_token := AUTH_TOKEN |}.

(** The number of occurrences of [w] in [words]. *)
Fixpoint occurrences (w : str) (words : list str) : Z :=
  match words with
  | [] => 0
  | x :: words' => (if str_eqb x w then 1 else 0) + occurrences w words'
  end.

(** An answer other than 200, which the loop takes for a refusal, and a
    POST that raised. *)
Definition refused (o : post_outcome) : Prop :=
  exists code, o = Responded code /\ code <> 200.

Definition failed (o : post_outcome) : Prop :=
  o = ConnectionFailed \/ o = OtherFailure.

(** Inputs the claims are evaluated at. *)
Definition sample_token : str := lit "111517".

Definition sample_draws : Z -> Tasks.draws :=
  fun _ => {| Tasks.choice_draw := 2; Tasks.randint_draw := 7 |}.

(** The connection fails once, then the collector answers [code]. *)
Definition fails_once_then (code : Z) : nat -> post_outcome :=
  fun i => match i with O => ConnectionFailed | S _ => Responded code end.

(** What is observed of a run: how it ends, the number of POSTs, and the
    countdowns. *)
Definition observed (r : option Tasks.run)
    : option (result Tasks.task_return * nat * list Z) :=
  option_map (fun run => (Tasks.outcome run, List.length (Tasks.posted run),
                          Tasks.countdowns run)) r.

Definition sample_request (text : string) : Main.ChronoRequest :=
  {| Main.research_request_id := 7;
     Main.auth_token := sample_token;
     Main.text_for_analysis := Some (lit text);
     Main.purpose := None |}.

(** Draws that change from one execution to the next. *)
Definition changing_draws : Z -> Tasks.draws :=
  fun retries => {| Tasks.choice_draw := Z.to_nat retries;
                    Tasks.randint_draw := Z.to_nat retries |}.

(** * Properties *)

(** ** The scenarios of the specification *)

Example scenario_archaic :
  analyze_text_chronology (Some (lit "thou hath dost verily")) = Ret (1300, 4).
Proof. vm_compute. reflexivity. Qed.

Example scenario_modern :
  analyze_text_chronology
    (Some (lit "technology system data analysis network computer"))
  = Ret (1900, 6).
Proof. vm_compute. reflexivity. Qed.

(** ** Strings, sets and sums *)

Lemma str_eqb_eq (a b : str) : str_eqb a b = true <-> a = b.
Proof.
  revert b. induction a as [|x a IH]; intros [|y b]; simpl;
    try (split; [discriminate | congruence]); try tauto.
  rewrite andb_true_iff, N.eqb_eq, IH. split.
  - intros [-> ->]. reflexivity.
  - intros E. injection E as -> ->. tauto.
Qed.

Lemma str_eqb_refl (a : str) : str_eqb a a = true.
Proof. apply str_eqb_eq. reflexivity. Qed.

Lemma mem_In (x : str) (s : list str) : mem x s = true <-> In x s.
Proof.
  unfold mem. rewrite existsb_exists. split.
  - intros (y & Hy & E). apply str_eqb_eq in E. subst. assumption.
  - intros Hx. exists x. split; [assumption | apply str_eqb_refl].
Qed.

Lemma mem_false (x : str) (s : list str) : mem x s = false <-> ~ In x s.
Proof.
  rewrite <- mem_In. destruct (mem x s); split; intros; congruence.
Qed.

Lemma len_nonneg {A} (l : list A) : 0 <= len l.
Proof. unfold len. lia. Qed.

Lemma len_filter_le {A} (p : A -> bool) (l : list A) :
  len (filter p l) <= len l.
Proof.
  unfold len. apply Nat2Z.inj_le.
  induction l as [|a l IH]; simpl; [lia|]. destruct (p a); simpl; lia.
Qed.

Lemma fold_add_shift (l : list Z) (a : Z) :
  fold_left Z.add l a = a + fold_left Z.add l 0.
Proof.
  revert a. induction l as [|x l IH]; intros a; simpl; [lia|].
  rewrite (IH (a + x)), (IH x). lia.
Qed.

Lemma sum_int_ones {A} (l : list A) : sum_int (map (fun _ => 1) l) = len l.
Proof.
  unfold sum_int, len. induction l as [|a l IH]; simpl; [reflexivity|].
  rewrite fold_add_shift, IH. lia.
Qed.

(** The set built by inserting one element after the other holds what
    was inserted. *)
Lemma set_of_list_In (x : str) (l acc : list str) :
  In x (fold_left (fun s w => if mem w s then s else s ++ [w]) l acc)
  <-> In x acc \/ In x l.
Proof.
  revert acc. induction l as [|w l IH]; intros acc; simpl; [tauto|].
  rewrite IH. destruct (mem w acc) eqn:M.
  - apply mem_In in M. split; [tauto|]. intros [H|[->|H]]; tauto.
  - rewrite in_app_iff. simpl. tauto.
Qed.

Lemma in_some_vocabulary_spec (w : str) :
  in_some_vocabulary w = true
  <-> exists year vocab, In (year, vocab) ARCHAIC_VOCABULARY /\ In w vocab.
Proof.
  unfold in_some_vocabulary. rewrite existsb_exists. split.
  - intros ([year vocab] & Hin & Hm). exists year, vocab.
    split; [assumption | apply mem_In; assumption].
  - intros (year & vocab & Hin & Hw). exists (year, vocab).
    split; [assumption | apply mem_In; assumption].
Qed.

Lemma archaic_words_union (w : str) :
  mem w archaic_words = in_some_vocabulary w.
Proof.
  apply eq_true_iff_eq. rewrite mem_In, in_some_vocabulary_spec.
  unfold archaic_words. rewrite set_of_list_In, in_flat_map. split.
  - intros [[]|([year vocab] & Hin & Hw)]. exists year, vocab. tauto.
  - intros (year & vocab & Hin & Hw). right. exists (year, vocab). tauto.
Qed.

(** ** Dictionaries and [Counter] *)

Lemma dict_set_keys (d : list (str * Z)) (w : str) (v : Z) (k : str) :
  In k (map fst (dict_set str_eqb d w v)) -> In k (map fst d) \/ k = w.
Proof.
  induction d as [|[k' v'] d IH]; simpl.
  - intros [<-|[]]. tauto.
  - destruct (str_eqb k' w); simpl; tauto.
Qed.

Lemma Counter_keys (words : list str) (k : str) :
  In k (map fst (Counter words)) -> In k words.
Proof.
  unfold Counter.
  assert (G : forall ws c,
             In k (map fst (fold_left
               (fun c w => dict_set str_eqb c w (dict_get str_eqb c w 0 + 1))
               ws c)) -> In k (map fst c) \/ In k ws).
  { induction ws as [|w ws IH]; intros c; simpl; [tauto|].
    intros H. destruct (IH _ H) as [H'|H']; [|tauto].
    apply dict_set_keys in H'. destruct H' as [H'| ->]; tauto. }
  intros H. destruct (G _ _ H) as [[]|H']. assumption.
Qed.

(** A text none of whose words is in [vocab] has similarity 0.0 to it. *)
Lemma safe_cosine_similarity_disjoint (vec1 vec2 : list (str * Z)) :
  (forall x, In x (map fst vec1) -> ~ In x (map fst vec2)) ->
  safe_cosine_similarity vec1 vec2 = 0%float.
Proof.
  intros D. unfold safe_cosine_similarity.
  replace (filter (fun x => mem x (map fst vec2)) (map fst vec1)) with (@nil str);
    [reflexivity|].
  symmetry. induction (map fst vec1) as [|x l IH]; simpl; [reflexivity|].
  assert (M : mem x (map fst vec2) = false)
    by (apply mem_false, D; left; reflexivity).
  rewrite M. apply IH. intros y Hy. apply D. right. assumption.
Qed.

(** ** The order of floats *)

Local Open Scope float_scope.

Ltac sf_order :=
  unfold SFltb, SFleb, SFeqb, SFcompare;
  repeat match goal with
         | x : spec_float |- _ => destruct x as [ [|] | [|] | | [|] ? ? ]
         end;
  simpl; try congruence;
  repeat match goal with
         | |- context [Pos.compare_cont Eq ?a ?b] => fold (Pos.compare a b)
         end;
  repeat match goal with
         | |- context [Z.compare ?a ?b] => destruct (Z.compare_spec a b)
         | |- context [Pos.compare ?a ?b] => destruct (Pos.compare_spec a b)
         end;
  simpl; try congruence; try lia.

Lemma SFltb_irrefl (x : spec_float) : SFltb x x = false.
Proof. sf_order. Qed.

Lemma SFltb_SFleb (x y : spec_float) : SFltb x y = true -> SFleb x y = true.
Proof. sf_order. Qed.

Lemma SFleb_not_SFltb (x y : spec_float) :
  SFleb x y = true -> SFltb y x = false.
Proof. sf_order. Qed.

Lemma SFltb_raise (a b c : spec_float) :
  SFltb b a = true -> SFltb b c = false -> SFltb a c = false.
Proof. sf_order. Qed.

Lemma SFltb_SFeqb (b e x : spec_float) :
  SFltb b x = true -> SFeqb e x = true -> SFltb b e = true.
Proof. sf_order. Qed.

Lemma SFleb_total (x y : spec_float) :
  SFeqb x x = true -> SFeqb y y = true -> SFltb x y = false ->
  SFleb y x = true.
Proof. sf_order. Qed.

Lemma ltb_irrefl (x : float) : (x <? x) = false.
Proof. rewrite ltb_spec. apply SFltb_irrefl. Qed.

Lemma ltb_leb (x y : float) : (x <? y) = true -> (x <=? y) = true.
Proof. rewrite ltb_spec, leb_spec. apply SFltb_SFleb. Qed.

Lemma leb_not_ltb (x y : float) : (x <=? y) = true -> (y <? x) = false.
Proof. rewrite ltb_spec, leb_spec. apply SFleb_not_SFltb. Qed.

(** Nothing that [b] does not exceed exceeds a value above [b]. *)
Lemma ltb_raise (a b c : float) :
  (b <? a) = true -> (b <? c) = false -> (a <? c) = false.
Proof. rewrite !ltb_spec. apply SFltb_raise. Qed.

Lemma ltb_eqb (b e x : float) :
  (b <? x) = true -> (e =? x) = true -> (b <? e) = true.
Proof. rewrite !ltb_spec, eqb_spec. apply SFltb_SFeqb. Qed.

(** Two floats that are not NaN are comparable. *)
Lemma leb_total (x y : float) :
  (x =? x) = true -> (y =? y) = true -> (x <? y) = false -> (y <=? x) = true.
Proof. rewrite !eqb_spec, ltb_spec, leb_spec. apply SFleb_total. Qed.

Local Close Scope float_scope.

(** ** [max] over the score map *)

(** The invariant of the scan: [best] is the entry kept so far, [pre] the
    entries before it and [mid] the ones read after it. No entry read
    exceeds [best], and none before it has its value. *)
Lemma max_from_first_max (rest pre : list (Z * float)) (best : Z * float)
    (mid : list (Z * float)) :
  (forall z, In z (pre ++ best :: mid) -> (snd best <? snd z)%float = false) ->
  (forall z, In z pre -> (snd z =? snd best)%float = false) ->
  exists pre' sy post,
    pre ++ best :: mid ++ rest = pre' ++ (max_from best rest, sy) :: post
    /\ (forall z, In z (pre ++ best :: mid ++ rest) ->
                  (sy <? snd z)%float = false)
    /\ (forall z, In z pre' -> (snd z =? sy)%float = false).
Proof.
  revert pre best mid. induction rest as [|x rest IH]; intros pre best mid Hmax Hfirst.
  - exists pre, (snd best), mid. simpl. rewrite app_nil_r.
    destruct best as [y sy]. simpl. auto.
  - simpl. destruct (snd best <? snd x)%float eqn:Lt.
    + destruct (IH (pre ++ best :: mid) x []) as (pre' & sy & post & E & M & F).
      * intros z Hz. rewrite <- app_assoc in Hz. simpl in Hz.
        apply in_app_iff in Hz. simpl in Hz. rewrite in_app_iff in Hz. simpl in Hz.
        destruct Hz as [Hz|[<-|[Hz|[<-|[]]]]];
          try (apply (ltb_raise _ (snd best)); [assumption | apply Hmax;
               apply in_app_iff; simpl; tauto]).
        apply ltb_irrefl.
      * intros z Hz. destruct (snd z =? snd x)%float eqn:Eq; [|reflexivity].
        rewrite <- (Hmax z Hz). symmetry.
        apply (ltb_eqb _ _ (snd x)); assumption.
      * exists pre', sy, post. simpl in E, M. rewrite <- app_assoc in E, M.
        simpl in E, M. auto.
    + destruct (IH pre best (mid ++ [x])) as (pre' & sy & post & E & M & F).
      * intros z Hz. apply in_app_iff in Hz. simpl in Hz.
        rewrite in_app_iff in Hz. simpl in Hz.
        destruct Hz as [Hz|[<-|[Hz|[<-|[]]]]];
          try assumption; apply Hmax; apply in_app_iff; simpl; tauto.
      * assumption.
      * exists pre', sy, post. rewrite <- app_assoc in E, M. simpl in E, M. auto.
Qed.

(** [max(scores, key=scores.get)] returns a key of the dict whose value
    no value of the dict exceeds, and no entry before it has that value. *)
Lemma max_by_value_spec (scores : list (Z * float)) :
  scores <> [] ->
  exists y pre sy post,
    max_by_value scores = Some y
    /\ scores = pre ++ (y, sy) :: post
    /\ (forall z, In z scores -> (sy <? snd z)%float = false)
    /\ (forall z, In z pre -> (snd z =? sy)%float = false).
Proof.
  destruct scores as [|x rest]; [congruence|]. intros _. simpl.
  destruct (max_from_first_max rest [] x []) as (pre & sy & post & E & M & F).
  - simpl. intros z [<-|[]]. apply ltb_irrefl.
  - intros z [].
  - exists (max_from x rest), pre, sy, post. simpl in E, M. auto.
Qed.

(** In a list in strictly ascending order, what follows an element is
    above it. *)
Lemma ascending_after (pre post : list Z) (y y' : Z) :
  StronglySorted Z.lt (pre ++ y :: post) -> In y' post -> y < y'.
Proof.
  induction pre as [|p pre IH]; simpl; intros S Hin.
  - inversion S as [|? ? _ All]. subst.
    rewrite Forall_forall in All. apply All. assumption.
  - inversion S. subst. apply IH; assumption.
Qed.

Lemma anchors_ascending : StronglySorted Z.lt anchors.
Proof. unfold anchors. repeat constructor; lia. Qed.

(** ** The score map *)

Lemma similarity_scores_eq (text_vector : list (str * Z)) :
  similarity_scores text_vector
  = map (fun year => (year, era_score text_vector year)) anchors.
Proof. reflexivity. Qed.

Lemma adjust_scores_keys (readability : float) (text_vector : list (str * Z)) :
  map fst (adjust_scores readability (similarity_scores text_vector)) = anchors.
Proof.
  rewrite similarity_scores_eq. unfold adjust_scores.
  destruct (readability <? 40)%float; [reflexivity|].
  destruct (70 <? readability)%float; reflexivity.
Qed.

Lemma adjust_scores_nonempty (readability : float) (text_vector : list (str * Z)) :
  adjust_scores readability (similarity_scores text_vector) <> [].
Proof.
  intros E. apply (f_equal (map fst)) in E.
  rewrite adjust_scores_keys in E. discriminate.
Qed.

(** ** The estimator, past its guards *)

Section Estimator.
Context `{Unicode}.

Lemma analyze_text_chronology_scored (s : str) :
  too_short (Some s) 5 = false ->
  findall_words (lower s) <> [] ->
  exists best_year,
    max_by_value (score_map s) = Some best_year
    /\ analyze_text_chronology (Some s)
       = Ret (best_year,
              len (filter in_some_vocabulary (findall_words (lower s)))).
Proof.
  intros G W.
  destruct (max_by_value_spec (score_map s)) as (y & pre & sy & post & E & _).
  { apply adjust_scores_nonempty. }
  exists y. split; [assumption|].
  unfold score_map in E. unfold analyze_text_chronology. rewrite G.
  cbv zeta. destruct (findall_words (lower s)) as [|w ws] eqn:Ws; [congruence|].
  rewrite E, sum_int_ones. do 3 f_equal.
  apply filter_ext. intros a. apply archaic_words_union.
Qed.

(** On a [str] the estimator returns, and the year is an anchor. *)
Lemma analyze_text_chronology_total (s : str) :
  exists year matched,
    analyze_text_chronology (Some s) = Ret (year, matched) /\ In year anchors.
Proof.
  destruct (too_short (Some s) 5) eqn:G.
  - exists 1500, 0. unfold analyze_text_chronology. rewrite G.
    split; [reflexivity | unfold anchors; simpl; tauto].
  - destruct (findall_words (lower s)) as [|w ws] eqn:Ws.
    + exists 1500, 0. unfold analyze_text_chronology. rewrite G, Ws.
      split; [reflexivity | unfold anchors; simpl; tauto].
    + destruct (analyze_text_chronology_scored s G) as (y & M & E).
      { rewrite Ws. discriminate. }
      exists y, (len (filter in_some_vocabulary (findall_words (lower s)))).
      split; [assumption|].
      destruct (max_by_value_spec (score_map s)) as (y' & pre & sy & post & M' & D & _).
      { apply adjust_scores_nonempty. }
      rewrite M in M'. injection M' as <-.
      rewrite <- (adjust_scores_keys (safe_calculate_flesch_reading_ease (Some s))
                   (Counter (findall_words (lower s)))).
      fold (score_map s). rewrite D, map_app. apply in_app_iff. simpl. tauto.
Qed.
End Estimator.

(** ** The guards *)

Section Guards.
Context `{Unicode}.

Lemma strip_nil : strip [] = [].
Proof. reflexivity. Qed.

(** [too_short] is the comparison of the trimmed length: an empty text
    has trimmed length 0. *)
Lemma too_short_lt (s : str) (n : Z) :
  0 < n -> too_short (Some s) n = (len (strip s) <? n).
Proof.
  intros Hn. unfold too_short. destruct s as [|c s]; [|reflexivity].
  rewrite strip_nil. symmetry. apply Z.ltb_lt. assumption.
Qed.

Lemma too_short_false (s : str) (n : Z) :
  0 < n -> n <= len (strip s) -> too_short (Some s) n = false.
Proof. intros Hn L. rewrite too_short_lt by assumption. apply Z.ltb_ge, L. Qed.

Lemma too_short_true (s : str) (n : Z) :
  0 < n -> len (strip s) < n -> too_short (Some s) n = true.
Proof. intros Hn L. rewrite too_short_lt by assumption. apply Z.ltb_lt, L. Qed.
End Guards.

(** ** The estimator's claims *)

(** C3. For a text that passes the guards (trimmed length at least 5, at
    least one word), the estimator returns an anchor of the score map
    whose adjusted score no score of the map exceeds, and every anchor of
    the map with that same score is this anchor or a later (higher) one:
    among tied maximal anchors the lowest year is returned. Maximal is
    taken with the comparison [max] itself uses; when no score of the map
    is NaN, every score is less than or equal to the one returned. *)
Theorem best_era_is_first_maximum `{Unicode} (s : str) :
  5 <= len (strip s) ->
  findall_words (lower s) <> [] ->
  exists year matched score,
    analyze_text_chronology (Some s) = Ret (year, matched)
    /\ In (year, score) (score_map s)
    /\ (forall year' score', In (year', score') (score_map s) ->
          (score <? score')%float = false)
    /\ (forall year' score', In (year', score') (score_map s) ->
          (score' =? score)%float = true -> year <= year')
    /\ ((forall year' score', In (year', score') (score_map s) ->
           (score' =? score')%float = true) ->
        forall year' score', In (year', score') (score_map s) ->
          (score' <=? score)%float = true).
Proof.
  intros L W.
  destruct (analyze_text_chronology_scored s) as (y & M & E);
    [apply too_short_false; [lia | assumption] | assumption |].
  destruct (max_by_value_spec (score_map s)) as (y' & pre & sy & post & M' & D & Max & First).
  { apply adjust_scores_nonempty. }
  rewrite M in M'. injection M' as <-.
  exists y, (len (filter in_some_vocabulary (findall_words (lower s)))), sy.
  assert (Here : In (y, sy) (score_map s))
    by (rewrite D; apply in_app_iff; simpl; tauto).
  split; [assumption|]. split; [assumption|].
  split; [|split].
  - intros year' score' Hin. apply (Max (year', score') Hin).
  - intros year' score' Hin Tie. rewrite D in Hin.
    apply in_app_iff in Hin. simpl in Hin. destruct Hin as [Hin|[Hin|Hin]].
    + specialize (First _ Hin). simpl in First. congruence.
    + injection Hin as <- _. lia.
    + apply Z.lt_le_incl, (ascending_after (map fst pre) (map fst post)).
      * pose proof (adjust_scores_keys (safe_calculate_flesch_reading_ease (Some s))
                      (Counter (findall_words (lower s)))) as K.
        fold (score_map s) in K. rewrite D, map_app in K. simpl in K.
        rewrite K. apply anchors_ascending.
      * apply (in_map fst) in Hin. assumption.
  - intros NoNan year' score' Hin.
    apply leb_total; [exact (NoNan _ _ Here) | exact (NoNan _ _ Hin) |].
    apply (Max (year', score') Hin).
Qed.

Lemma best_era_is_first_maximum_witness :
  5 <= len (strip (lit "thou hath dost verily"))
  /\ exists year matched score,
       analyze_text_chronology (Some (lit "thou hath dost verily"))
       = Ret (year, matched)
       /\ In (year, score) (score_map (lit "thou hath dost verily"))
       /\ (forall year' score',
             In (year', score') (score_map (lit "thou hath dost verily")) ->
             (score <? score')%float = false)
       /\ (forall year' score',
             In (year', score') (score_map (lit "thou hath dost verily")) ->
             (score' =? score)%float = true -> year <= year')
       /\ ((forall year' score',
              In (year', score') (score_map (lit "thou hath dost verily")) ->
              (score' =? score')%float = true) ->
           forall year' score',
             In (year', score') (score_map (lit "thou hath dost verily")) ->
             (score' <=? score)%float = true).
Proof.
  split; [vm_compute; discriminate|].
  apply (best_era_is_first_maximum (lit "thou hath dost verily")).
  - vm_compute. discriminate.
  - vm_compute. discriminate.
Defined.

(** C5. For a text that passes the guards, the matched count the
    estimator returns is the number of occurrences of word tokens of the
    text that belong to one of the four era vocabularies (every
    occurrence of a repeated word counts); it is at least 0 and at most
    the number of tokens. *)
Theorem matched_layers_counts_occurrences `{Unicode} (s : str) :
  5 <= len (strip s) ->
  findall_words (lower s) <> [] ->
  exists year matched,
    analyze_text_chronology (Some s) = Ret (year, matched)
    /\ matched = len (filter in_some_vocabulary (findall_words (lower s)))
    /\ (forall w, in_some_vocabulary w = true
                  <-> exists era vocab,
                        In (era, vocab) ARCHAIC_VOCABULARY /\ In w vocab)
    /\ 0 <= matched <= len (findall_words (lower s)).
Proof.
  intros L W.
  destruct (analyze_text_chronology_scored s) as (y & M & E);
    [apply too_short_false; [lia | assumption] | assumption |].
  exists y, (len (filter in_some_vocabulary (findall_words (lower s)))).
  split; [assumption|]. split; [reflexivity|].
  split; [apply in_some_vocabulary_spec|].
  split; [apply len_nonneg | apply len_filter_le].
Qed.

Lemma matched_layers_counts_occurrences_witness :
  exists year matched,
    analyze_text_chronology (Some (lit "thou and thou shall data"))
    = Ret (year, matched)
    /\ matched = len (filter in_some_vocabulary
                        (findall_words (lower (lit "thou and thou shall data"))))
    /\ (forall w, in_some_vocabulary w = true
                  <-> exists era vocab,
                        In (era, vocab) ARCHAIC_VOCABULARY /\ In w vocab)
    /\ 0 <= matched <= len (findall_words (lower (lit "thou and thou shall data"))).
Proof.
  apply (matched_layers_counts_occurrences (lit "thou and thou shall data")).
  - vm_compute. discriminate.
  - vm_compute. discriminate.
Defined.

(** A word that occurs twice counts twice. *)
Example repeated_word_counts_twice :
  exists year,
    analyze_text_chronology (Some (lit "thou and thou shall data"))
    = Ret (year, 4).
Proof. eexists. vm_compute. reflexivity. Qed.

(** C6, as the code has it. For a [str] that is empty or whose trimmed
    length is below 5, the estimator returns (1500, 0); so it does for a
    [str] in which the tokenizer finds no word. *)
Theorem short_input_default `{Unicode} (s : str) :
  s = [] \/ len (strip s) < 5 \/ findall_words (lower s) = [] ->
  analyze_text_chronology (Some s) = Ret (1500, 0).
Proof.
  intros G. unfold analyze_text_chronology.
  destruct (too_short (Some s) 5) eqn:T; [reflexivity|].
  destruct G as [->|[L|W]].
  - discriminate.
  - rewrite too_short_true in T by (lia || assumption). discriminate.
  - cbv zeta. rewrite W. reflexivity.
Qed.

Lemma short_input_default_witness :
  analyze_text_chronology (Some (lit "  ab  ")) = Ret (1500, 0).
Proof.
  apply (short_input_default (lit "  ab  ")).
  right. left. vm_compute. reflexivity.
Defined.

(** C6 as stated fails on [None]: the log message of the first statement
    takes [len(text)], which raises before the guard is reached. *)
Lemma short_input_default_fails_on_None :
  analyze_text_chronology None = Raise TypeError
  /\ analyze_text_chronology None <> Ret (1500, 0).
Proof. split; [reflexivity | discriminate]. Qed.

(** C7. The readability of every text, [None] included, is between 0 and
    100, and it is 50.0 for [None] and for every text whose trimmed length
    is below 10. *)
Theorem readability_bounds `{Unicode} (text : option str) :
  ((0 <=? safe_calculate_flesch_reading_ease text)%float = true
   /\ (safe_calculate_flesch_reading_ease text <=? 100)%float = true)
  /\ match text with
     | None => safe_calculate_flesch_reading_ease text = 50%float
     | Some s => len (strip s) < 10 ->
                 safe_calculate_flesch_reading_ease text = 50%float
     end.
Proof.
  split.
  - unfold safe_calculate_flesch_reading_ease.
    destruct text as [s|]; [|split; reflexivity].
    destruct (too_short (Some s) 10); [split; reflexivity|].
    cbv zeta.
    match goal with |- context [min_float 100 ?x] => generalize x end.
    intros score. unfold max_float, min_float.
    destruct (score <? 100)%float eqn:Hi.
    + destruct (0 <? score)%float eqn:Lo.
      * split; apply ltb_leb; assumption.
      * split; reflexivity.
    + split; reflexivity.
  - destruct text as [s|]; [|reflexivity].
    intros L. unfold safe_calculate_flesch_reading_ease.
    rewrite too_short_true by (lia || assumption). reflexivity.
Qed.

Lemma readability_bounds_witness :
  ((0 <=? safe_calculate_flesch_reading_ease (Some (lit "hi there")))%float = true
   /\ (safe_calculate_flesch_reading_ease (Some (lit "hi there")) <=? 100)%float
      = true)
  /\ (len (strip (lit "hi there")) < 10 ->
      safe_calculate_flesch_reading_ease (Some (lit "hi there")) = 50%float).
Proof. exact (readability_bounds (Some (lit "hi there"))). Defined.

(** The vocabulary of each anchor is an entry of [ARCHAIC_VOCABULARY]. *)
Lemma vocabulary_entry (year : Z) :
  In year anchors -> In (year, vocabulary year) ARCHAIC_VOCABULARY.
Proof.
  unfold anchors. simpl.
  intros [<-|[<-|[<-|[<-|[]]]]]; unfold ARCHAIC_VOCABULARY, vocabulary; simpl; tauto.
Qed.

(** C9. For a text that passes the guards, none of whose words is in an
    era vocabulary and whose readability is between 40 and 70, every
    score of the map is 0.0 and the estimator returns (1300, 0): the
    first anchor, not the default 1500. *)
Theorem no_signal_selects_first_anchor `{Unicode} (s : str) :
  5 <= len (strip s) ->
  findall_words (lower s) <> [] ->
  (forall w era vocab,
      In w (findall_words (lower s)) ->
      In (era, vocab) ARCHAIC_VOCABULARY -> ~ In w vocab) ->
  (40 <=? safe_calculate_flesch_reading_ease (Some s))%float = true ->
  (safe_calculate_flesch_reading_ease (Some s) <=? 70)%float = true ->
  score_map s = [(1300, 0%float); (1500, 0%float); (1700, 0%float); (1900, 0%float)]
  /\ analyze_text_chronology (Some s) = Ret (1300, 0).
Proof.
  intros L W NoWord Lo Hi.
  assert (Zero : forall year, In year anchors ->
            era_score (Counter (findall_words (lower s))) year = 0%float).
  { intros year Hy. unfold era_score.
    rewrite safe_cosine_similarity_disjoint; [reflexivity|].
    intros x Hx. apply Counter_keys in Hx.
    rewrite map_map. simpl. rewrite map_id.
    apply (NoWord x year); [assumption | apply vocabulary_entry; assumption]. }
  assert (Map : score_map s
                = [(1300, 0%float); (1500, 0%float); (1700, 0%float); (1900, 0%float)]).
  { unfold score_map, adjust_scores.
    rewrite (leb_not_ltb _ _ Lo), (leb_not_ltb _ _ Hi), similarity_scores_eq.
    unfold anchors. simpl map.
    rewrite !Zero by (unfold anchors; simpl; tauto). reflexivity. }
  split; [assumption|].
  destruct (analyze_text_chronology_scored s) as (y & M & E);
    [apply too_short_false; [lia | assumption] | assumption |].
  rewrite Map in M. vm_compute in M. injection M as <-.
  rewrite E. do 2 f_equal.
  replace (filter in_some_vocabulary (findall_words (lower s))) with (@nil str);
    [reflexivity|].
  symmetry. clear - NoWord.
  induction (findall_words (lower s)) as [|w ws IH]; [reflexivity|].
  simpl. destruct (in_some_vocabulary w) eqn:V.
  - apply in_some_vocabulary_spec in V. destruct V as (era & vocab & Hin & Hw).
    exfalso. apply (NoWord w era vocab); simpl; tauto.
  - apply IH. intros w' era vocab Hw'. apply NoWord. right. assumption.
Qed.

Lemma no_signal_selects_first_anchor_witness :
  score_map (lit "the garden is empty today")
  = [(1300, 0%float); (1500, 0%float); (1700, 0%float); (1900, 0%float)]
  /\ analyze_text_chronology (Some (lit "the garden is empty today"))
     = Ret (1300, 0).
Proof.
  apply (no_signal_selects_first_anchor (lit "the garden is empty today")).
  - vm_compute. discriminate.
  - vm_compute. discriminate.
  - intros w era vocab Hw Hera Hin.
    assert (V : in_some_vocabulary w = true)
      by (apply in_some_vocabulary_spec; exists era, vocab; tauto).
    vm_compute in Hw.
    repeat (destruct Hw as [<-|Hw]; [vm_compute in V; discriminate|]).
    destruct Hw.
  - vm_compute. reflexivity.
  - vm_compute. reflexivity.
Defined.

(** C10, as the code has it. For a text whose trimmed length is at least
    5 and below 10 and in which the tokenizer finds a word, the
    readability is exactly 50.0, the score map is the map of the
    similarity scores with no adjustment, and the year returned is the
    one [max] selects from the similarity scores alone. *)
Theorem threshold_gap_no_adjustment `{Unicode} (s : str) :
  5 <= len (strip s) < 10 ->
  findall_words (lower s) <> [] ->
  safe_calculate_flesch_reading_ease (Some s) = 50%float
  /\ score_map s = similarity_scores (Counter (findall_words (lower s)))
  /\ exists year matched,
       max_by_value (similarity_scores (Counter (findall_words (lower s))))
       = Some year
       /\ analyze_text_chronology (Some s) = Ret (year, matched).
Proof.
  intros [L5 L10] W.
  assert (R : safe_calculate_flesch_reading_ease (Some s) = 50%float).
  { unfold safe_calculate_flesch_reading_ease.
    rewrite too_short_true by (lia || assumption). reflexivity. }
  assert (Map : score_map s
                = similarity_scores (Counter (findall_words (lower s)))).
  { unfold score_map. rewrite R. reflexivity. }
  split; [assumption|]. split; [assumption|].
  destruct (analyze_text_chronology_scored s) as (y & M & E);
    [apply too_short_false; [lia | assumption] | assumption |].
  rewrite Map in M. eauto.
Qed.

Lemma threshold_gap_no_adjustment_witness :
  safe_calculate_flesch_reading_ease (Some (lit "thou data")) = 50%float
  /\ score_map (lit "thou data")
     = similarity_scores (Counter (findall_words (lower (lit "thou data"))))
  /\ exists year matched,
       max_by_value
         (similarity_scores (Counter (findall_words (lower (lit "thou data")))))
       = Some year
       /\ analyze_text_chronology (Some (lit "thou data")) = Ret (year, matched).
Proof.
  apply (threshold_gap_no_adjustment (lit "thou data")).
  - vm_compute. split; [discriminate | reflexivity].
  - vm_compute. discriminate.
Defined.

(** C10 as stated fails on a text of five exclamation marks: its trimmed
    length is 5, but no word is found in it, so the estimator returns the
    default (1500, 0) before any score is computed, where [max] over the
    similarity scores of its (empty) word list would select 1300. *)
Lemma threshold_gap_fails_without_words :
  5 <= len (strip (lit "!!!!!")) < 10
  /\ findall_words (lower (lit "!!!!!")) = []
  /\ analyze_text_chronology (Some (lit "!!!!!")) = Ret (1500, 0)
  /\ max_by_value
       (similarity_scores (Counter (findall_words (lower (lit "!!!!!")))))
     = Some 1300.
Proof.
  vm_compute. repeat split; try discriminate; reflexivity.
Qed.

(** ** The delivery loop of the task *)

Lemma self_retry_Retry (retries countdown c : Z) :
  Tasks.self_retry retries countdown = Retry c ->
  c = countdown /\ retries + 1 <= Tasks.task_max_retries.
Proof.
  unfold Tasks.self_retry.
  destruct (Tasks.task_max_retries <? retries + 1) eqn:E; [discriminate|].
  intros [= <-]. apply Z.ltb_ge in E. auto.
Qed.

(** One pass of the loop: it POSTs at least once and at most once per
    attempt; a [Retry] it raises has countdown 5 and is within the task's
    retries; it does not return after a POST that failed; and it reports
    success only on a 200. *)
Lemma post_loop_facts (retries id : Z) (net : nat -> post_outcome)
    (attempts : list Z) :
  forall (sent : nat) (r : result Tasks.task_return) (sent' : nat),
    Tasks.post_loop retries id net sent attempts = (r, sent') ->
    (sent <= sent' <= sent + List.length attempts)%nat
    /\ (attempts <> [] -> (sent < sent')%nat)
    /\ (forall c, r = Raise (Retry c) ->
                  c = 5 /\ retries + 1 <= Tasks.task_max_retries)
    /\ ((sent < sent')%nat ->
        net (Nat.pred sent') = ConnectionFailed
        \/ net (Nat.pred sent') = OtherFailure ->
        exists e, r = Raise e)
    /\ (forall x, r = Ret x ->
                  x = Tasks.Failed
                  \/ (x = Tasks.Success id
                      /\ net (Nat.pred sent') = Responded 200)).
Proof.
  induction attempts as [|attempt rest IH]; intros sent r sent'; simpl.
  - intros [= <- <-]. split; [lia|]. split; [congruence|].
    split; [discriminate|]. split; [lia|]. intros x [= <-]. tauto.
  - destruct (net sent) as [code| |] eqn:N.
    + destruct (code =? 200) eqn:C.
      * intros [= <- <-]. simpl. rewrite N. apply Z.eqb_eq in C. subst code.
        split; [lia|]. split; [lia|]. split; [discriminate|].
        split; [intros _ [D|D]; discriminate|]. intros x [= <-]. tauto.
      * intros E. destruct (IH _ _ _ E) as (B & _ & Rt & Last & Ok).
        split; [lia|]. split; [lia|]. split; [assumption|].
        split; [|assumption].
        intros _ D. destruct (Nat.eq_dec sent' (S sent)) as [->|Ne].
        -- simpl in D. rewrite N in D. destruct D; discriminate.
        -- apply Last; [lia | assumption].
    + destruct (attempt <? _); intros [= <- <-];
        (split; [lia|]; split; [lia|]; split;
         [|split; [eauto | discriminate]]).
      * intros c [= Hc]. apply self_retry_Retry in Hc. tauto.
      * discriminate.
    + destruct (attempt <? _); intros [= <- <-];
        (split; [lia|]; split; [lia|]; split;
         [|split; [eauto | discriminate]]).
      * intros c [= Hc]. apply self_retry_Retry in Hc. tauto.
      * discriminate.
Qed.

Section TaskRuns.
Context `{Unicode}.
Variables (AUTH_TOKEN : str) (research_request_id : Z).

(** An execution whose analysis returns runs the loop once and POSTs
    the same body at every attempt. *)
Lemma calculate_chrono_async_posts (retries : Z) (text : option str)
    (rng : Tasks.draws) (net : nat -> post_outcome) (sent : nat)
    (calculated : Z * Z) :
  analyze_text_chronology text = Ret calculated ->
  Tasks.calculate_chrono_async AUTH_TOKEN retries research_request_id text
                               rng net sent
  = (fst (Tasks.post_loop retries research_request_id net sent
                          (Tasks.range Tasks.max_retries)),
     repeat (data_of AUTH_TOKEN research_request_id
                     (Tasks.fallback rng calculated))
            (snd (Tasks.post_loop retries research_request_id net sent
                                  (Tasks.range Tasks.max_retries)) - sent),
     snd (Tasks.post_loop retries research_request_id net sent
                          (Tasks.range Tasks.max_retries))).
Proof.
  intros E. unfold Tasks.calculate_chrono_async. rewrite E.
  destruct (Tasks.fallback rng calculated) as [y m].
  destruct (Tasks.post_loop retries research_request_id net sent
                            (Tasks.range Tasks.max_retries)) as [r sent'].
  reflexivity.
Qed.

(** The two ways an execution leaves the worker. *)
Lemma worker_retries (fuel : nat) (retries : Z) (text : option str)
    (rng : Z -> Tasks.draws) (net : nat -> post_outcome) (sent : nat)
    (countdown : Z) (bodies : list result_data) (sent' : nat) :
  Tasks.calculate_chrono_async AUTH_TOKEN retries research_request_id text
                               (rng retries) net sent
  = (Raise (Retry countdown), bodies, sent') ->
  Tasks.worker (S fuel) AUTH_TOKEN retries research_request_id text rng net sent
  = match Tasks.worker fuel AUTH_TOKEN (retries + 1) research_request_id
                       text rng net sent' with
    | None => None
    | Some later =>
        Some {| Tasks.outcome := Tasks.outcome later;
                Tasks.posted := bodies ++ Tasks.posted later;
                Tasks.countdowns := countdown :: Tasks.countdowns later |}
    end.
Proof. intros X. simpl. rewrite X. reflexivity. Qed.

Lemma worker_returns (fuel : nat) (retries : Z) (text : option str)
    (rng : Z -> Tasks.draws) (net : nat -> post_outcome) (sent : nat)
    (x : Tasks.task_return) (bodies : list result_data) (sent' : nat) :
  Tasks.calculate_chrono_async AUTH_TOKEN retries research_request_id text
                               (rng retries) net sent
  = (Ret x, bodies, sent') ->
  Tasks.worker (S fuel) AUTH_TOKEN retries research_request_id text rng net sent
  = Some {| Tasks.outcome := Ret x; Tasks.posted := bodies;
            Tasks.countdowns := [] |}.
Proof. intros X. simpl. rewrite X. reflexivity. Qed.

(** The worker ends within the executions it is granted. *)
Lemma worker_ends (text : option str) (rng : Z -> Tasks.draws)
    (net : nat -> post_outcome) (fuel : nat) :
  forall (retries : Z) (sent : nat),
    (0 < fuel)%nat ->
    Tasks.task_max_retries < retries + Z.of_nat fuel ->
    exists run,
      Tasks.worker fuel AUTH_TOKEN retries research_request_id text rng net sent
      = Some run.
Proof.
  induction fuel as [|fuel IH]; intros retries sent Pos Enough; [lia|].
  simpl.
  destruct (Tasks.calculate_chrono_async AUTH_TOKEN retries research_request_id
              text (rng retries) net sent) as [[r bodies] sent'] eqn:X.
  destruct r as [x|e]; [eauto|].
  destruct e; eauto.
  assert (R : retries + 1 <= Tasks.task_max_retries).
  { unfold Tasks.calculate_chrono_async in X.
    destruct (analyze_text_chronology text) as [c|e] eqn:A.
    - destruct (Tasks.fallback (rng retries) c) as [y m].
      destruct (Tasks.post_loop retries research_request_id net sent
                  (Tasks.range Tasks.max_retries)) as [r1 s1] eqn:P.
      injection X as -> _ _.
      apply post_loop_facts in P. destruct P as (_ & _ & Rt & _).
      destruct (Rt _ eq_refl). assumption.
    - injection X as -> _ _. unfold analyze_text_chronology in A.
      destruct text as [s|]; [|discriminate].
      destruct (too_short (Some s) 5); [discriminate|]. cbv zeta in A.
      destruct (findall_words (lower s)); [discriminate|].
      destruct (max_by_value _); discriminate. }
  destruct (IH (retries + 1) sent') as (later & L); [lia | lia |].
  rewrite L. eauto.
Qed.

(** What holds of a finished run on a [str]: every body POSTed is the
    body of the analysis after a fallback; at least one POST was made;
    every countdown is 5; and a run whose last POST failed ends by
    raising. *)
Lemma worker_facts (s : str) (calculated : Z * Z) (rng : Z -> Tasks.draws)
    (net : nat -> post_outcome) (fuel : nat) :
  analyze_text_chronology (Some s) = Ret calculated ->
  forall (retries : Z) (sent : nat) (run : Tasks.run),
    Tasks.worker fuel AUTH_TOKEN retries research_request_id (Some s) rng net sent
    = Some run ->
    Forall (fun d => exists draws,
              d = data_of AUTH_TOKEN research_request_id
                          (Tasks.fallback draws calculated))
           (Tasks.posted run)
    /\ Tasks.posted run <> []
    /\ Forall (eq 5) (Tasks.countdowns run)
    /\ (net (Nat.pred (sent + List.length (Tasks.posted run))) = ConnectionFailed
        \/ net (Nat.pred (sent + List.length (Tasks.posted run))) = OtherFailure ->
        exists e, Tasks.outcome run = Raise e).
Proof.
  intros A. induction fuel as [|fuel IH]; intros retries sent run; simpl;
    [discriminate|].
  rewrite (calculate_chrono_async_posts _ _ _ _ _ _ A).
  destruct (Tasks.post_loop retries research_request_id net sent
              (Tasks.range Tasks.max_retries)) as [r sent'] eqn:P.
  simpl fst. simpl snd.
  apply post_loop_facts in P.
  destruct P as (B & Pos & Rt & Last & _).
  assert (Lt : (sent < sent')%nat) by (apply Pos; discriminate).
  assert (Bodies : Forall (fun d => exists draws,
              d = data_of AUTH_TOKEN research_request_id
                          (Tasks.fallback draws calculated))
            (repeat (data_of AUTH_TOKEN research_request_id
                             (Tasks.fallback (rng retries) calculated))
                    (sent' - sent))).
  { apply Forall_forall. intros d Hd. apply repeat_spec in Hd. eauto. }
  assert (NonEmpty : repeat (data_of AUTH_TOKEN research_request_id
                             (Tasks.fallback (rng retries) calculated))
                            (sent' - sent) <> []).
  { destruct (sent' - sent)%nat eqn:D; [lia | discriminate]. }
  assert (Stop : forall r0,
             r0 = r -> (forall c, r <> Raise (Retry c)) ->
             Some {| Tasks.outcome := r0;
                     Tasks.posted := repeat (data_of AUTH_TOKEN research_request_id
                                     (Tasks.fallback (rng retries) calculated))
                                     (sent' - sent);
                     Tasks.countdowns := [] |} = Some run ->
             Forall (fun d => exists draws,
                d = data_of AUTH_TOKEN research_request_id
                            (Tasks.fallback draws calculated))
               (Tasks.posted run)
             /\ Tasks.posted run <> []
             /\ Forall (eq 5) (Tasks.countdowns run)
             /\ (net (Nat.pred (sent + List.length (Tasks.posted run)))
                 = ConnectionFailed
                 \/ net (Nat.pred (sent + List.length (Tasks.posted run)))
                    = OtherFailure ->
                 exists e, Tasks.outcome run = Raise e)).
  { intros r0 -> _ [= <-]. simpl. rewrite repeat_length.
    repeat split; try assumption; [constructor|].
    replace (sent + (sent' - sent))%nat with sent' by lia.
    apply Last. assumption. }
  destruct r as [x|e]; [apply (Stop _ eq_refl); congruence|].
  destruct e; try (apply (Stop _ eq_refl); congruence).
  destruct (Tasks.worker fuel AUTH_TOKEN (retries + 1) research_request_id
              (Some s) rng net sent') as [later|] eqn:W; [|discriminate].
  intros [= <-]. simpl.
  destruct (IH _ _ _ W) as (F & NE & C & L).
  destruct (Rt _ eq_refl) as [-> _].
  repeat split.
  - apply Forall_app. split; assumption.
  - intros E. apply app_eq_nil in E. tauto.
  - constructor; [reflexivity | assumption].
  - rewrite length_app, repeat_length.
    replace (sent + (sent' - sent + List.length (Tasks.posted later)))%nat
      with (sent' + List.length (Tasks.posted later))%nat by lia.
    assumption.
Qed.
End TaskRuns.

(** ** The fallback *)

Lemma random_choice_In (seq : list Z) (k : nat) :
  seq <> [] -> In (Tasks.random_choice seq k) seq.
Proof.
  intros NE. unfold Tasks.random_choice. apply nth_In.
  apply Nat.mod_upper_bound. destruct seq; [congruence | discriminate].
Qed.

Lemma random_randint_range (a b : Z) (k : nat) :
  a <= b -> a <= Tasks.random_randint a b k <= b.
Proof.
  intros L. unfold Tasks.random_randint.
  pose proof (Z.mod_pos_bound (Z.of_nat k) (b - a + 1)). lia.
Qed.

(** Whatever is drawn, a result with no match is replaced by an anchor
    and a count from 1 to 5, and any other result is kept. *)
Lemma fallback_zero (draws : Tasks.draws) (year : Z) :
  In (fst (Tasks.fallback draws (year, 0))) anchors
  /\ 1 <= snd (Tasks.fallback draws (year, 0)) <= 5.
Proof.
  unfold Tasks.fallback.
  change (0 =? 0) with true. cbv iota. unfold fst, snd. split.
  - apply (random_choice_In anchors). discriminate.
  - apply random_randint_range. lia.
Qed.

Lemma fallback_year (draws : Tasks.draws) (year matched : Z) :
  In year anchors -> In (fst (Tasks.fallback draws (year, matched))) anchors.
Proof.
  intros Hy. unfold Tasks.fallback. destruct (matched =? 0); [|assumption].
  apply (random_choice_In anchors). discriminate.
Qed.

(** ** The claims on the two front ends *)

Section FrontEnds.
Context `{Unicode}.

Lemma post_loop_connection_failed (retries id : Z)
    (net : nat -> post_outcome) (sent : nat) :
  net sent = ConnectionFailed ->
  Tasks.post_loop retries id net sent (Tasks.range Tasks.max_retries)
  = (Raise (Tasks.self_retry retries 5), S sent).
Proof. intros N. simpl. rewrite N. reflexivity. Qed.

Lemma post_loop_accepted (retries id : Z) (net : nat -> post_outcome)
    (sent : nat) :
  net sent = Responded 200 ->
  Tasks.post_loop retries id net sent (Tasks.range Tasks.max_retries)
  = (Ret (Tasks.Success id), S sent).
Proof. intros N. simpl. rewrite N. reflexivity. Qed.

(** C2, as the code has it. In the Celery task, for a text on which the
    estimator returns a matched count of 0, whatever is drawn and
    whatever the collector does, the run ends, POSTs at least one body,
    and every body POSTed has a year among the anchors and a matched
    count from 1 to 5. *)
Theorem fallback_on_zero_matches (AUTH_TOKEN : str) (research_request_id : Z)
    (text : option str) (year : Z) (rng : Z -> Tasks.draws)
    (net : nat -> post_outcome) :
  analyze_text_chronology text = Ret (year, 0) ->
  exists run,
    Tasks.delay AUTH_TOKEN research_request_id text rng net = Some run
    /\ Tasks.posted run <> []
    /\ Forall (fun d => In (result_from_year d) anchors
                        /\ 1 <= rd_matched_layers d <= 5)
              (Tasks.posted run).
Proof.
  intros A. destruct text as [s|]; [|discriminate].
  destruct (worker_ends AUTH_TOKEN research_request_id (Some s) rng net
              (S (Z.to_nat Tasks.task_max_retries)) 0 0%nat) as (run & E);
    [lia | unfold Tasks.task_max_retries; lia |].
  exists run. split; [exact E|].
  destruct (worker_facts AUTH_TOKEN research_request_id s (year, 0) rng net
              _ A _ _ _ E) as (F & NE & _).
  split; [exact NE|].
  apply (Forall_impl _ (P := fun d => exists draws,
           d = data_of AUTH_TOKEN research_request_id
                       (Tasks.fallback draws (year, 0)))); [|exact F].
  intros d (draws & ->). exact (fallback_zero draws year).
Qed.

(** C4. The year the estimator returns is an anchor, and on a [str] it
    always returns one; the only text on which it raises is [None].
    Every body the Celery task POSTs, fallback or not, carries an
    anchor, and so do the body POSTed and the answer given by the
    synchronous front end. *)
Theorem year_is_an_anchor (text : option str) :
  match analyze_text_chronology text with
  | Ret (year, _) => In year anchors
  | Raise _ => text = None
  end
  /\ (forall AUTH_TOKEN research_request_id rng net run,
        Tasks.delay AUTH_TOKEN research_request_id text rng net = Some run ->
        Forall (fun d => In (result_from_year d) anchors) (Tasks.posted run))
  /\ (forall AUTH_TOKEN collector request,
        Main.text_for_analysis request = text ->
        Forall (fun d => In (result_from_year d) anchors)
               (snd (fst (Main.calculate_chrono AUTH_TOKEN collector request)))
        /\ forall r y,
             fst (fst (Main.calculate_chrono AUTH_TOKEN collector request))
             = Main.Body r ->
             Main.year r = Some y -> In y anchors).
Proof.
  destruct text as [s|].
  - destruct (analyze_text_chronology_total s) as (y & m & A & Hy).
    rewrite A. split; [assumption|]. split.
    + intros AUTH_TOKEN research_request_id rng net run E.
      destruct (worker_facts AUTH_TOKEN research_request_id s (y, m) rng net
                  _ A _ _ _ E) as (F & _).
      apply (Forall_impl _ (P := fun d => exists draws,
               d = data_of AUTH_TOKEN research_request_id
                           (Tasks.fallback draws (y, m)))); [|exact F].
      intros d (draws & ->). exact (fallback_year draws y m Hy).
    + intros AUTH_TOKEN collector request T.
      unfold Main.calculate_chrono. rewrite T, A.
      destruct (negb _); [split; [constructor | discriminate]|].
      destruct (Main.blank _).
      * split; [apply Forall_nil|]. intros r y' [= <-]. discriminate.
      * split; [apply Forall_cons; [exact Hy | apply Forall_nil]|].
        intros r y' [= <-] [= <-]. exact Hy.
  - split; [reflexivity|]. split.
    + intros AUTH_TOKEN research_request_id rng net run [= <-]. constructor.
    + intros AUTH_TOKEN collector request T.
      unfold Main.calculate_chrono. rewrite T.
      destruct (negb _); [split; [constructor | discriminate]|].
      simpl. split; [constructor|]. intros r y' [= <-]. discriminate.
Qed.

(** C8. In the synchronous front end, for a request with the expected
    token and a text that is not blank, whose estimation returns
    (year, matched), the caller is answered "success" with that year
    and that count, whatever the POST to the collector does; a failed
    delivery is only logged. *)
Theorem delivery_failure_keeps_result (AUTH_TOKEN_EXPECTED : str)
    (collector : result_data -> post_outcome)
    (request : Main.ChronoRequest) (year matched : Z) :
  Main.auth_token request = AUTH_TOKEN_EXPECTED ->
  Main.blank (Main.text_for_analysis request) = false ->
  analyze_text_chronology (Main.text_for_analysis request)
  = Ret (year, matched) ->
  fst (fst (Main.calculate_chrono AUTH_TOKEN_EXPECTED collector request))
  = Main.Body {| Main.status := "success";
                 Main.year := Some year;
                 Main.matched_layers := Some matched;
                 Main.error := None |}.
Proof.
  intros T B A. unfold Main.calculate_chrono.
  rewrite T, str_eqb_refl, B, A. reflexivity.
Qed.
End FrontEnds.

(** ** The claims at concrete inputs *)

(** C1 as stated fails twice. When every POST fails to connect, the run
    makes 4 POSTs, not 3, and raises after the 4th: each failure re-queues
    the whole task, whose loop starts again at attempt 0, and Celery
    grants 3 retries after the first execution. And a 201 after one
    failure is not taken for a success: the loop goes on to POST until
    its attempts are spent and returns "failed" after 4 POSTs. *)
Lemma dispatch_retry_protocol_as_stated_fails :
  observed (Tasks.delay sample_token 7 (Some (lit "thou hath dost verily"))
                        sample_draws (fun _ => ConnectionFailed))
  = Some (Raise MaxRetriesExceededError, 4%nat, [5; 5; 5])
  /\ observed (Tasks.delay sample_token 7 (Some (lit "thou hath dost verily"))
                           sample_draws (fails_once_then 201))
     = Some (Ret Tasks.Failed, 4%nat, [5]).
Proof. split; vm_compute; reflexivity. Qed.

Lemma fallback_on_zero_matches_witness :
  analyze_text_chronology (Some (lit "hello world")) = Ret (1900, 0)
  /\ exists run,
       Tasks.delay sample_token 7 (Some (lit "hello world")) sample_draws
                   (fails_once_then 200) = Some run
       /\ Tasks.posted run <> []
       /\ Forall (fun d => In (result_from_year d) anchors
                           /\ 1 <= rd_matched_layers d <= 5)
                 (Tasks.posted run).
Proof.
  split; [vm_compute; reflexivity|].
  apply (fallback_on_zero_matches sample_token 7 (Some (lit "hello world")) 1900).
  vm_compute. reflexivity.
Defined.

(** C2 as stated fails in the synchronous front end, which has no
    fallback: on "hello world" the estimator returns (1900, 0), and the
    body POSTed and the answer to the caller carry the matched count 0. *)
Lemma fallback_on_zero_matches_fails_in_main :
  analyze_text_chronology (Some (lit "hello world")) = Ret (1900, 0)
  /\ map (fun d => (result_from_year d, rd_matched_layers d))
         (snd (fst (Main.calculate_chrono sample_token (fun _ => Responded 200)
                                          (sample_request "hello world"))))
     = [(1900, 0)]
  /\ ~ (1 <= 0 <= 5).
Proof. split; [|split]; [vm_compute; reflexivity | vm_compute; reflexivity | lia]. Qed.

Lemma delivery_failure_keeps_result_witness :
  fst (fst (Main.calculate_chrono sample_token (fun _ => ConnectionFailed)
                                  (sample_request "thou hath dost verily")))
  = Main.Body {| Main.status := "success";
                 Main.year := Some 1300;
                 Main.matched_layers := Some 4;
                 Main.error := None |}.
Proof.
  apply (delivery_failure_keeps_result sample_token (fun _ => ConnectionFailed)
           (sample_request "thou hath dost verily") 1300 4).
  - reflexivity.
  - vm_compute. reflexivity.
  - vm_compute. reflexivity.
Defined.

(** * More of the code *)

(** ** The delivery loop, POST by POST *)

(** Before its last POST the loop only saw refusals (answers other than
    200); it raises only after a POST that failed, and what it raises is
    the retry, [ConnectionError] or the other exception; it returns
    "failed" only after a refusal at every attempt; it returns success
    only for its own request, after a 200. *)
Lemma post_loop_trace (retries id : Z) (net : nat -> post_outcome)
    (attempts : list Z) :
  forall (sent : nat) (r : result Tasks.task_return) (sent' : nat),
    Tasks.post_loop retries id net sent attempts = (r, sent') ->
    (forall i, (sent <= i)%nat -> (S i < sent')%nat ->
               exists code, net i = Responded code /\ code <> 200)
    /\ (forall e, r = Raise e ->
          (sent < sent')%nat
          /\ (net (Nat.pred sent') = ConnectionFailed
              \/ net (Nat.pred sent') = OtherFailure)
          /\ (e = Tasks.self_retry retries 5 \/ e = ConnectionError
              \/ e = OtherException))
    /\ (r = Ret Tasks.Failed ->
          sent' = (sent + List.length attempts)%nat
          /\ forall i, (sent <= i < sent')%nat ->
                       exists code, net i = Responded code /\ code <> 200)
    /\ (forall x, r = Ret (Tasks.Success x) ->
          x = id /\ (sent < sent')%nat
          /\ net (Nat.pred sent') = Responded 200).
Proof.
  induction attempts as [|attempt rest IH]; intros sent r sent'; simpl.
  - intros [= <- <-]. split; [intros; lia|]. split; [discriminate|].
    split; [|discriminate]. intros _. split; [lia | intros; lia].
  - destruct (net sent) as [code| |] eqn:N.
    + destruct (code =? 200) eqn:C.
      * intros [= <- <-]. apply Z.eqb_eq in C. subst code.
        split; [intros; lia|]. split; [discriminate|].
        split; [discriminate|]. intros x [= <-]. simpl. auto with arith.
      * apply Z.eqb_neq in C. intros E.
        pose proof (post_loop_facts _ _ _ _ _ _ _ E) as (B & _).
        destruct (IH _ _ _ E) as (Early & Raised & Refused & Ok).
        assert (Here : forall i, i = sent ->
                  exists code, net i = Responded code /\ code <> 200)
          by (intros i ->; eauto).
        split; [|split; [|split]].
        -- intros i Lo Hi. destruct (Nat.eq_dec i sent) as [->|Ne];
             [eauto | apply Early; lia].
        -- intros e Re. destruct (Raised e Re) as (Lt & Last & Kind).
           split; [lia | tauto].
        -- intros Re. destruct (Refused Re) as (-> & All).
           split; [lia|]. intros i Hi.
           destruct (Nat.eq_dec i sent) as [->|Ne]; [eauto | apply All; lia].
        -- intros x Re. destruct (Ok x Re) as (-> & Lt & Last).
           split; [reflexivity|]. split; [lia | assumption].
    + destruct (attempt <? _); intros [= <- <-];
        (split; [intros; lia|]; split;
         [|split; [discriminate | discriminate]]);
        intros e [= <-]; simpl; rewrite N; auto with arith.
    + destruct (attempt <? _); intros [= <- <-];
        (split; [intros; lia|]; split;
         [|split; [discriminate | discriminate]]);
        intros e [= <-]; simpl; rewrite N; auto with arith.
Qed.

(** An execution that asks for a retry has made at most 2 POSTs: the
    third attempt of the loop re-raises instead. *)
Lemma post_loop_retry_early (retries id : Z) (net : nat -> post_outcome)
    (sent : nat) (r : result Tasks.task_return) (sent' : nat) :
  Tasks.post_loop retries id net sent (Tasks.range Tasks.max_retries)
  = (r, sent') ->
  forall c, r = Raise (Retry c) -> (sent' <= sent + 2)%nat.
Proof.
  simpl.
  destruct (net sent) as [c0| |]; [destruct (c0 =? 200)| |];
    try (intros [= <- <-] c [= E]; lia).
  destruct (net (S sent)) as [c1| |]; [destruct (c1 =? 200)| |];
    try (intros [= <- <-] c [= E]; lia).
  destruct (net (S (S sent))) as [c2| |]; [destruct (c2 =? 200)| |];
    intros [= <- <-] c [= E].
Qed.

(** Three refusals in a row use the loop up. *)
Lemma post_loop_refused (retries id : Z) (net : nat -> post_outcome)
    (sent : nat) :
  (forall i, (sent <= i < sent + 3)%nat ->
             exists code, net i = Responded code /\ code <> 200) ->
  Tasks.post_loop retries id net sent (Tasks.range Tasks.max_retries)
  = (Ret Tasks.Failed, (sent + 3)%nat).
Proof.
  intros All. simpl.
  destruct (All sent) as (c0 & -> & N0); [lia|].
  destruct (All (S sent)) as (c1 & -> & N1); [lia|].
  destruct (All (S (S sent))) as (c2 & -> & N2); [lia|].
  apply Z.eqb_neq in N0, N1, N2. rewrite N0, N1, N2.
  do 2 f_equal. lia.
Qed.

Section TaskTraces.
Context `{Unicode}.
Variables (AUTH_TOKEN : str) (research_request_id : Z).

(** An execution either has no text to analyse, raises [TypeError] and
    POSTs nothing, or runs the loop. *)
Lemma calculate_chrono_async_cases (retries : Z) (text : option str)
    (rng : Tasks.draws) (net : nat -> post_outcome) (sent : nat) :
  (text = None
   /\ Tasks.calculate_chrono_async AUTH_TOKEN retries research_request_id text
                                   rng net sent
      = (Raise TypeError, [], sent))
  \/ (exists s calculated,
        text = Some s
        /\ analyze_text_chronology (Some s) = Ret calculated
        /\ Tasks.calculate_chrono_async AUTH_TOKEN retries research_request_id
                                        text rng net sent
           = (fst (Tasks.post_loop retries research_request_id net sent
                                   (Tasks.range Tasks.max_retries)),
              repeat (data_of AUTH_TOKEN research_request_id
                              (Tasks.fallback rng calculated))
                     (snd (Tasks.post_loop retries research_request_id net sent
                                           (Tasks.range Tasks.max_retries)) - sent),
              snd (Tasks.post_loop retries research_request_id net sent
                                   (Tasks.range Tasks.max_retries)))).
Proof.
  destruct text as [s|]; [right | left; split; reflexivity].
  destruct (analyze_text_chronology_total s) as (y & m & A & _).
  exists s, (y, m). split; [reflexivity|]. split; [assumption|].
  apply calculate_chrono_async_posts. assumption.
Qed.

(** A run has at most [task_max_retries - retries] countdowns, and at
    most 2 POSTs per countdown and 3 more. *)
Lemma worker_bounds (text : option str) (rng : Z -> Tasks.draws)
    (net : nat -> post_outcome) (fuel : nat) :
  forall (retries : Z) (sent : nat) (run : Tasks.run),
    Tasks.worker fuel AUTH_TOKEN retries research_request_id text rng net sent
    = Some run ->
    len (Tasks.countdowns run) <= Z.max 0 (Tasks.task_max_retries - retries)
    /\ (List.length (Tasks.posted run)
        <= 2 * List.length (Tasks.countdowns run) + 3)%nat.
Proof.
  induction fuel as [|fuel IH]; intros retries sent run;
    cbn [Tasks.worker]; [discriminate|].
  destruct (calculate_chrono_async_cases retries text (rng retries) net sent)
    as [(-> & X)|(s & c & -> & A & X)]; rewrite X.
  - intros [= <-]. cbn [Tasks.countdowns Tasks.posted]. unfold len.
    cbn [List.length]. split; lia.
  - destruct (Tasks.post_loop retries research_request_id net sent
                (Tasks.range Tasks.max_retries)) as [r sent'] eqn:P.
    simpl fst. simpl snd.
    pose proof (post_loop_facts _ _ _ _ _ _ _ P) as (B & _ & Rt & _).
    pose proof (post_loop_retry_early _ _ _ _ _ _ P) as Early.
    simpl in B.
    assert (Stop : forall r0 : result Tasks.task_return,
              Some {| Tasks.outcome := r0;
                      Tasks.posted := repeat (data_of AUTH_TOKEN research_request_id
                                               (Tasks.fallback (rng retries) c))
                                             (sent' - sent);
                      Tasks.countdowns := [] |} = Some run ->
              len (Tasks.countdowns run)
              <= Z.max 0 (Tasks.task_max_retries - retries)
              /\ (List.length (Tasks.posted run)
                  <= 2 * List.length (Tasks.countdowns run) + 3)%nat).
    { intros r0 [= <-]. cbn [Tasks.countdowns Tasks.posted].
      rewrite repeat_length. unfold len. cbn [List.length]. split; lia. }
    destruct r as [x|e]; [apply Stop|]. destruct e; try apply Stop.
    destruct (Tasks.worker fuel AUTH_TOKEN (retries + 1) research_request_id
                (Some s) rng net sent') as [later|] eqn:W; [|discriminate].
    intros [= <-]. cbn [Tasks.countdowns Tasks.posted].
    destruct (IH _ _ _ W) as (C & Pn).
    destruct (Rt _ eq_refl) as (_ & R).
    specialize (Early _ eq_refl).
    rewrite length_app, repeat_length. unfold len in *.
    cbn [List.length]. unfold Tasks.task_max_retries in *. split; lia.
Qed.

(** What the POSTs of a finished run on a [str] were: every POST but the
    last one was refused or failed; a run that returns success does so
    for its own request right after a 200; a run that returns "failed"
    ends with three refusals; a run that raises does so after a failed
    POST, and raises [ConnectionError], the other exception or
    [MaxRetriesExceededError], never [Retry] or [TypeError]. *)
Lemma worker_trace (s : str) (rng : Z -> Tasks.draws)
    (net : nat -> post_outcome) (fuel : nat) :
  forall (retries : Z) (sent : nat) (run : Tasks.run),
    Tasks.worker fuel AUTH_TOKEN retries research_request_id (Some s) rng net sent
    = Some run ->
    let last := (sent + List.length (Tasks.posted run))%nat in
    (forall i, (sent <= i)%nat -> (S i < last)%nat ->
               net i <> Responded 200)
    /\ (forall x, Tasks.outcome run = Ret (Tasks.Success x) ->
          x = research_request_id /\ net (Nat.pred last) = Responded 200)
    /\ (Tasks.outcome run = Ret Tasks.Failed ->
          (sent + 3 <= last)%nat
          /\ forall i, (last - 3 <= i < last)%nat ->
                       exists code, net i = Responded code /\ code <> 200)
    /\ (forall e, Tasks.outcome run = Raise e ->
          (net (Nat.pred last) = ConnectionFailed
           \/ net (Nat.pred last) = OtherFailure)
          /\ (e = MaxRetriesExceededError \/ e = ConnectionError
              \/ e = OtherException)).
Proof.
  destruct (analyze_text_chronology_total s) as (y & m & A & _).
  induction fuel as [|fuel IH]; intros retries sent run; simpl;
    [discriminate|].
  rewrite (calculate_chrono_async_posts _ _ _ _ _ _ _ _ A).
  destruct (Tasks.post_loop retries research_request_id net sent
              (Tasks.range Tasks.max_retries)) as [r sent'] eqn:P.
  simpl fst. simpl snd.
  pose proof (post_loop_facts _ _ _ _ _ _ _ P) as (B & Pos & _).
  pose proof (post_loop_trace _ _ _ _ _ _ _ P) as (Early & Raised & Refused & Ok).
  assert (Lt : (sent < sent')%nat) by (apply Pos; discriminate).
  simpl in B.
  assert (Refusal : forall i code,
            net i = Responded code /\ code <> 200 -> net i <> Responded 200).
  { intros i code (E & Ne) E'. rewrite E in E'. congruence. }
  assert (Stop : (forall c, r <> Raise (Retry c)) ->
            Some {| Tasks.outcome := r;
                    Tasks.posted := repeat (data_of AUTH_TOKEN research_request_id
                                             (Tasks.fallback (rng retries) (y, m)))
                                           (sent' - sent);
                    Tasks.countdowns := [] |} = Some run ->
            let last := (sent + List.length (Tasks.posted run))%nat in
            (forall i, (sent <= i)%nat -> (S i < last)%nat ->
                       net i <> Responded 200)
            /\ (forall x, Tasks.outcome run = Ret (Tasks.Success x) ->
                  x = research_request_id /\ net (Nat.pred last) = Responded 200)
            /\ (Tasks.outcome run = Ret Tasks.Failed ->
                  (sent + 3 <= last)%nat
                  /\ forall i, (last - 3 <= i < last)%nat ->
                               exists code, net i = Responded code /\ code <> 200)
            /\ (forall e, Tasks.outcome run = Raise e ->
                  (net (Nat.pred last) = ConnectionFailed
                   \/ net (Nat.pred last) = OtherFailure)
                  /\ (e = MaxRetriesExceededError \/ e = ConnectionError
                      \/ e = OtherException))).
  { intros NoRetry [= <-]. simpl. rewrite repeat_length.
    replace (sent + (sent' - sent))%nat with sent' by lia.
    split; [|split; [|split]].
    - intros i Lo Hi. destruct (Early i Lo Hi) as (code & E). eauto.
    - intros x Re. destruct (Ok x Re) as (-> & _ & Last). auto.
    - intros Re. destruct (Refused Re) as (E3 & All).
      change (List.length (Tasks.range Tasks.max_retries)) with 3%nat in E3.
      split; [lia|]. intros i Hi. apply All. lia.
    - intros e Re. destruct (Raised e Re) as (_ & Last & [->|Kind]);
        [|tauto]. split; [assumption|].
      unfold Tasks.self_retry in *.
      destruct (Tasks.task_max_retries <? retries + 1); [tauto|].
      exfalso. apply (NoRetry 5). assumption. }
  destruct r as [x|e]; [apply Stop; discriminate|].
  destruct e; try (apply Stop; discriminate).
  destruct (Tasks.worker fuel AUTH_TOKEN (retries + 1) research_request_id
              (Some s) rng net sent') as [later|] eqn:W; [|discriminate].
  intros [= <-]. simpl.
  destruct (IH _ _ _ W) as (E' & Ok' & Refused' & Raised').
  destruct (Raised _ eq_refl) as (_ & Last & _).
  rewrite length_app, repeat_length.
  replace (sent + (sent' - sent + List.length (Tasks.posted later)))%nat
    with (sent' + List.length (Tasks.posted later))%nat by lia.
  split; [|split; [|split]]; try assumption.
  - intros i Lo Hi.
    destruct (Nat.lt_ge_cases (S i) sent') as [In|Out].
    + destruct (Early i Lo In) as (code & E). eauto.
    + destruct (Nat.eq_dec (S i) sent') as [Eq|Ne].
      * replace i with (Nat.pred sent') by lia.
        destruct Last as [L|L]; rewrite L; discriminate.
      * apply E'; lia.
  - intros Re. destruct (Refused' Re) as (Len & All). split; [lia | exact All].
Qed.
End TaskTraces.

(** The loop of one execution, outcome by outcome of its POSTs. *)
Lemma post_loop_by_cases (retries id : Z) (net : nat -> post_outcome)
    (sent : nat) :
  (net sent = Responded 200 ->
   Tasks.post_loop retries id net sent (Tasks.range Tasks.max_retries)
   = (Ret (Tasks.Success id), S sent))
  /\ (failed (net sent) ->
      Tasks.post_loop retries id net sent (Tasks.range Tasks.max_retries)
      = (Raise (Tasks.self_retry retries 5), S sent))
  /\ (refused (net sent) -> net (S sent) = Responded 200 ->
      Tasks.post_loop retries id net sent (Tasks.range Tasks.max_retries)
      = (Ret (Tasks.Success id), S (S sent)))
  /\ (refused (net sent) -> failed (net (S sent)) ->
      Tasks.post_loop retries id net sent (Tasks.range Tasks.max_retries)
      = (Raise (Tasks.self_retry retries 5), S (S sent)))
  /\ (refused (net sent) -> refused (net (S sent)) ->
      net (S (S sent)) = Responded 200 ->
      Tasks.post_loop retries id net sent (Tasks.range Tasks.max_retries)
      = (Ret (Tasks.Success id), S (S (S sent))))
  /\ (refused (net sent) -> refused (net (S sent)) ->
      net (S (S sent)) = ConnectionFailed ->
      Tasks.post_loop retries id net sent (Tasks.range Tasks.max_retries)
      = (Raise ConnectionError, S (S (S sent))))
  /\ (refused (net sent) -> refused (net (S sent)) ->
      net (S (S sent)) = OtherFailure ->
      Tasks.post_loop retries id net sent (Tasks.range Tasks.max_retries)
      = (Raise OtherException, S (S (S sent))))
  /\ (refused (net sent) -> refused (net (S sent)) ->
      refused (net (S (S sent))) ->
      Tasks.post_loop retries id net sent (Tasks.range Tasks.max_retries)
      = (Ret Tasks.Failed, S (S (S sent)))).
Proof.
  assert (No : forall c, c <> 200 -> (c =? 200) = false)
    by (intros c Ne; apply Z.eqb_neq; assumption).
  unfold refused, failed. simpl.
  repeat split.
  - intros ->. reflexivity.
  - intros [-> | ->]; reflexivity.
  - intros (c0 & -> & N0) ->. rewrite (No _ N0). reflexivity.
  - intros (c0 & -> & N0) [-> | ->]; rewrite (No _ N0); reflexivity.
  - intros (c0 & -> & N0) (c1 & -> & N1) ->.
    rewrite (No _ N0), (No _ N1). reflexivity.
  - intros (c0 & -> & N0) (c1 & -> & N1) ->.
    rewrite (No _ N0), (No _ N1). reflexivity.
  - intros (c0 & -> & N0) (c1 & -> & N1) ->.
    rewrite (No _ N0), (No _ N1). reflexivity.
  - intros (c0 & -> & N0) (c1 & -> & N1) (c2 & -> & N2).
    rewrite (No _ N0), (No _ N1), (No _ N2). reflexivity.
Qed.

Section RetryProtocol.
Context `{Unicode}.

(** C1, as the code has it. On a [str], the task run by a worker ends.

    One execution POSTs at least once and at most 3 times, and how it
    ends is decided by the answers, attempt by attempt: an answer of 200
    returns success; any other answer is a refusal and is followed by
    the next attempt at once; a POST that fails (to connect, or
    otherwise) at the first or second attempt raises what
    [self.retry(countdown=5)] raises, which is [Retry] with countdown 5
    while the task's retries are not spent; at the third attempt the
    failure itself is raised; three refusals return "failed".

    Over the run: every wait between two executions is a countdown of
    5; a failure at the first attempt, or at the second after a refusal,
    is followed by a countdown of 5 and another execution; a run whose
    last POST failed ends by raising; no POST before the last was
    answered 200, and the run returns success exactly when its last
    POST was answered 200; and when the first POST fails to connect and
    the second is answered 200, the run returns success after exactly 2
    POSTs and one countdown of 5. *)
Theorem dispatch_retry_protocol (AUTH_TOKEN : str) (research_request_id : Z)
    (s : str) (rng : Z -> Tasks.draws) (net : nat -> post_outcome) :
  exists run,
    Tasks.delay AUTH_TOKEN research_request_id (Some s) rng net = Some run
    /\ (forall retries draws sent,
          let execution :=
            Tasks.calculate_chrono_async AUTH_TOKEN retries research_request_id
                                         (Some s) draws net sent in
          let ends (r : result Tasks.task_return) (posts : nat) :=
            fst (fst execution) = r
            /\ snd execution = (sent + posts)%nat
            /\ List.length (snd (fst execution)) = posts in
          (sent < snd execution <= sent + 3)%nat
          /\ (net sent = Responded 200 ->
              ends (Ret (Tasks.Success research_request_id)) 1%nat)
          /\ (failed (net sent) ->
              ends (Raise (Tasks.self_retry retries 5)) 1%nat)
          /\ (refused (net sent) -> net (S sent) = Responded 200 ->
              ends (Ret (Tasks.Success research_request_id)) 2%nat)
          /\ (refused (net sent) -> failed (net (S sent)) ->
              ends (Raise (Tasks.self_retry retries 5)) 2%nat)
          /\ (refused (net sent) -> refused (net (S sent)) ->
              net (S (S sent)) = Responded 200 ->
              ends (Ret (Tasks.Success research_request_id)) 3%nat)
          /\ (refused (net sent) -> refused (net (S sent)) ->
              net (S (S sent)) = ConnectionFailed ->
              ends (Raise ConnectionError) 3%nat)
          /\ (refused (net sent) -> refused (net (S sent)) ->
              net (S (S sent)) = OtherFailure ->
              ends (Raise OtherException) 3%nat)
          /\ (refused (net sent) -> refused (net (S sent)) ->
              refused (net (S (S sent))) ->
              ends (Ret Tasks.Failed) 3%nat))
    /\ (forall retries, retries + 1 <= Tasks.task_max_retries ->
                        Tasks.self_retry retries 5 = Retry 5)
    /\ Forall (eq 5) (Tasks.countdowns run)
    /\ (failed (net 0%nat) ->
        exists rest, Tasks.countdowns run = 5 :: rest
                     /\ (2 <= List.length (Tasks.posted run))%nat)
    /\ (refused (net 0%nat) -> failed (net 1%nat) ->
        exists rest, Tasks.countdowns run = 5 :: rest
                     /\ (3 <= List.length (Tasks.posted run))%nat)
    /\ (failed (net (Nat.pred (List.length (Tasks.posted run)))) ->
        exists e, Tasks.outcome run = Raise e)
    /\ (forall i, (S i < List.length (Tasks.posted run))%nat ->
                  net i <> Responded 200)
    /\ (Tasks.outcome run = Ret (Tasks.Success research_request_id)
        <-> net (Nat.pred (List.length (Tasks.posted run))) = Responded 200)
    /\ (net 0%nat = ConnectionFailed ->
        net 1%nat = Responded 200 ->
        Tasks.outcome run = Ret (Tasks.Success research_request_id)
        /\ List.length (Tasks.posted run) = 2%nat
        /\ Tasks.countdowns run = [5]).
Proof.
  destruct (analyze_text_chronology_total s) as (y & m & A & _).
  destruct (worker_ends AUTH_TOKEN research_request_id (Some s) rng net
              (S (Z.to_nat Tasks.task_max_retries)) 0 0%nat) as (run & E);
    [lia | unfold Tasks.task_max_retries; lia |].
  exists run. split; [exact E|].
  destruct (worker_facts AUTH_TOKEN research_request_id s (y, m) rng net
              _ A _ _ _ E) as (_ & NE & C & L).
  destruct (worker_trace AUTH_TOKEN research_request_id _ _ _ _ _ _ _ E)
    as (Early & Ok & Refused & Raised).
  cbn [Nat.add] in Early, Ok, Refused, Raised, L.
  (* a first execution that asks for a retry is followed by another *)
  assert (Again : forall bodies sent',
            Tasks.calculate_chrono_async AUTH_TOKEN 0 research_request_id
              (Some s) (rng 0) net 0%nat
            = (Raise (Retry 5), bodies, sent') ->
            exists rest, Tasks.countdowns run = 5 :: rest
                         /\ (S (List.length bodies)
                             <= List.length (Tasks.posted run))%nat).
  { intros bodies sent' X. unfold Tasks.delay in E.
    change (Z.to_nat Tasks.task_max_retries) with 3%nat in E.
    rewrite (worker_retries _ _ _ _ _ _ _ _ _ _ _ X) in E.
    destruct (Tasks.worker 3 AUTH_TOKEN (0 + 1) research_request_id (Some s)
                rng net sent') as [later|] eqn:W; [|discriminate].
    injection E as <-. cbn [Tasks.countdowns Tasks.posted].
    destruct (worker_facts AUTH_TOKEN research_request_id s (y, m) rng net
                _ A _ _ _ W) as (_ & NE' & _).
    exists (Tasks.countdowns later). split; [reflexivity|].
    rewrite length_app. destruct (Tasks.posted later); [congruence|].
    simpl. lia. }
  split; [|split; [|split; [exact C | split; [|split; [|split; [|split;
           [|split]]]]]]].
  - intros retries draws sent. cbv zeta.
    rewrite (calculate_chrono_async_posts _ _ _ _ _ _ _ _ A). cbn [fst snd].
    destruct (post_loop_by_cases retries research_request_id net sent)
      as (C1 & C2 & C3 & C4 & C5 & C6 & C7 & C8).
    split.
    + destruct (Tasks.post_loop retries research_request_id net sent
                  (Tasks.range Tasks.max_retries)) as [r sent'] eqn:P.
      cbn [snd]. apply post_loop_facts in P. destruct P as (B & Pos & _).
      simpl in B. split; [apply Pos; discriminate | lia].
    + repeat split; intros;
        match goal with
        | |- context [Tasks.post_loop ?a ?b ?c ?d ?e] =>
            first [rewrite C1 by assumption | rewrite C2 by assumption
                  | rewrite C3 by assumption | rewrite C4 by assumption
                  | rewrite C5 by assumption | rewrite C6 by assumption
                  | rewrite C7 by assumption | rewrite C8 by assumption]
        end; cbn [fst snd]; rewrite ?repeat_length; try reflexivity; lia.
  - intros retries R. unfold Tasks.self_retry.
    apply Z.ltb_ge in R. rewrite R. reflexivity.
  - intros F0. destruct (post_loop_by_cases 0 research_request_id net 0)
      as (_ & C2 & _).
    destruct (Again [data_of AUTH_TOKEN research_request_id
                             (Tasks.fallback (rng 0) (y, m))] 1%nat)
      as (rest & Cd & Len); [|exists rest; split; [exact Cd | exact Len]].
    rewrite (calculate_chrono_async_posts _ _ _ _ _ _ _ _ A), (C2 F0).
    reflexivity.
  - intros R0 F1. destruct (post_loop_by_cases 0 research_request_id net 0)
      as (_ & _ & _ & C4 & _).
    destruct (Again (repeat (data_of AUTH_TOKEN research_request_id
                                     (Tasks.fallback (rng 0) (y, m))) 2) 2%nat)
      as (rest & Cd & Len); [|exists rest; split; [exact Cd | exact Len]].
    rewrite (calculate_chrono_async_posts _ _ _ _ _ _ _ _ A), (C4 R0 F1).
    reflexivity.
  - exact L.
  - intros i Hi. apply Early; lia.
  - split; [intros Hx; apply (Ok _ Hx)|].
    intros Last. destruct (Tasks.outcome run) as [[x|]|e] eqn:O.
    + destruct (Ok x eq_refl) as (-> & _). reflexivity.
    + destruct (Refused eq_refl) as (Len & All).
      destruct (All (Nat.pred (List.length (Tasks.posted run))))
        as (c & E' & Ne); [lia|]. rewrite Last in E'. congruence.
    + destruct (Raised e eq_refl) as ([F|F] & _); rewrite F in Last;
        discriminate.
  - intros N0 N1. unfold Tasks.delay in E.
    change (Z.to_nat Tasks.task_max_retries) with 3%nat in E.
    assert (X1 : Tasks.calculate_chrono_async AUTH_TOKEN 0 research_request_id
                   (Some s) (rng 0) net 0%nat
                 = (Raise (Retry 5),
                    [data_of AUTH_TOKEN research_request_id
                             (Tasks.fallback (rng 0) (y, m))], 1%nat)).
    { rewrite (calculate_chrono_async_posts _ _ _ _ _ _ _ _ A),
        (post_loop_connection_failed _ _ _ _ N0). reflexivity. }
    assert (X2 : Tasks.calculate_chrono_async AUTH_TOKEN (0 + 1)
                   research_request_id (Some s) (rng (0 + 1)) net 1%nat
                 = (Ret (Tasks.Success research_request_id),
                    [data_of AUTH_TOKEN research_request_id
                             (Tasks.fallback (rng (0 + 1)) (y, m))], 2%nat)).
    { rewrite (calculate_chrono_async_posts _ _ _ _ _ _ _ _ A),
        (post_loop_accepted _ _ _ _ N1). reflexivity. }
    rewrite (worker_retries _ _ _ _ _ _ _ _ _ _ _ X1),
      (worker_returns _ _ _ _ _ _ _ _ _ _ _ X2) in E.
    injection E as <-. simpl. auto.
Qed.
End RetryProtocol.

Lemma dispatch_retry_protocol_witness :
  exists run,
    Tasks.delay sample_token 7 (Some (lit "thou hath dost verily"))
                sample_draws (fails_once_then 200) = Some run
    /\ Tasks.outcome run = Ret (Tasks.Success 7)
    /\ List.length (Tasks.posted run) = 2%nat
    /\ Tasks.countdowns run = [5].
Proof.
  destruct (dispatch_retry_protocol sample_token 7 (lit "thou hath dost verily")
              sample_draws (fails_once_then 200))
    as (run & E & _ & _ & _ & _ & _ & _ & _ & _ & D).
  exists run. split; [exact E|]. apply D; reflexivity.
Defined.

(** ** The task, from [delay] to its end *)

Section TaskProperties.
Context `{Unicode}.
Variables (AUTH_TOKEN : str) (research_request_id : Z).

(** The first body of a run on a [str] is the body of its first
    execution. *)
Lemma worker_first_body (s : str) (calculated : Z * Z)
    (rng : Z -> Tasks.draws) (net : nat -> post_outcome) (fuel : nat)
    (retries : Z) (sent : nat) (run : Tasks.run) :
  analyze_text_chronology (Some s) = Ret calculated ->
  Tasks.worker fuel AUTH_TOKEN retries research_request_id (Some s) rng net sent
  = Some run ->
  exists rest,
    Tasks.posted run
    = data_of AUTH_TOKEN research_request_id
              (Tasks.fallback (rng retries) calculated) :: rest.
Proof.
  intros A. destruct fuel as [|fuel]; cbn [Tasks.worker]; [discriminate|].
  rewrite (calculate_chrono_async_posts _ _ _ _ _ _ _ _ A).
  destruct (Tasks.post_loop retries research_request_id net sent
              (Tasks.range Tasks.max_retries)) as [r sent'] eqn:P.
  cbn [fst snd].
  pose proof (post_loop_facts _ _ _ _ _ _ _ P) as (_ & Pos & _).
  assert (Lt : (sent < sent')%nat) by (apply Pos; discriminate).
  destruct (sent' - sent)%nat as [|k] eqn:D; [lia|]. cbn [repeat].
  destruct r as [x|e]; [intros [= <-]; cbn; eauto|].
  destruct e; try (intros [= <-]; cbn; eauto).
  destruct (Tasks.worker fuel AUTH_TOKEN (retries + 1) research_request_id
              (Some s) rng net sent') as [later|]; [|discriminate].
  intros [= <-]. cbn. eauto.
Qed.

(** X1. A collector that answers the first three POSTs, none of them
    with 200, gets exactly three POSTs with no wait between them; the
    task then returns "failed" instead of raising, so nothing is retried. *)
Theorem refusals_end_in_failed (s : str) (rng : Z -> Tasks.draws)
    (net : nat -> post_outcome) :
  (forall i, (i < 3)%nat -> exists code, net i = Responded code /\ code <> 200) ->
  observed (Tasks.delay AUTH_TOKEN research_request_id (Some s) rng net)
  = Some (Ret Tasks.Failed, 3%nat, []).
Proof.
  intros All.
  destruct (analyze_text_chronology_total s) as (y & m & A & _).
  unfold Tasks.delay.
  change (Z.to_nat Tasks.task_max_retries) with 3%nat.
  rewrite (worker_returns AUTH_TOKEN research_request_id _ _ _ _ _ _
             Tasks.Failed
             (repeat (data_of AUTH_TOKEN research_request_id
                              (Tasks.fallback (rng 0) (y, m))) 3) 3).
  - reflexivity.
  - rewrite (calculate_chrono_async_posts _ _ _ _ _ _ _ _ A),
      post_loop_refused; [reflexivity|].
    intros i Hi. apply All. lia.
Qed.

(** X2. Whatever the text, the draws and the collector, a task ends within
    4 executions (at most 3 countdowns) and 9 POSTs. *)
Theorem run_is_bounded (text : option str) (rng : Z -> Tasks.draws)
    (net : nat -> post_outcome) :
  exists run,
    Tasks.delay AUTH_TOKEN research_request_id text rng net = Some run
    /\ (List.length (Tasks.countdowns run) <= 3)%nat
    /\ (List.length (Tasks.posted run) <= 9)%nat.
Proof.
  destruct (worker_ends AUTH_TOKEN research_request_id text rng net
              (S (Z.to_nat Tasks.task_max_retries)) 0 0%nat) as (run & E);
    [lia | unfold Tasks.task_max_retries; lia |].
  exists run. split; [exact E|].
  destruct (worker_bounds AUTH_TOKEN research_request_id _ _ _ _ _ _ _ E)
    as (C & P).
  unfold len, Tasks.task_max_retries in C. lia.
Qed.

(** X3. On a [str], no POST is made after a 200: every POST of a run but
    its last was refused or failed; and the run returns success, for its
    own request, exactly when its last POST was answered 200. *)
Theorem run_stops_at_first_200 (s : str) (rng : Z -> Tasks.draws)
    (net : nat -> post_outcome) :
  exists run,
    Tasks.delay AUTH_TOKEN research_request_id (Some s) rng net = Some run
    /\ (forall i, (S i < List.length (Tasks.posted run))%nat ->
                  net i <> Responded 200)
    /\ (Tasks.outcome run = Ret (Tasks.Success research_request_id)
        <-> net (Nat.pred (List.length (Tasks.posted run))) = Responded 200)
    /\ (forall x, Tasks.outcome run = Ret (Tasks.Success x) ->
                  x = research_request_id).
Proof.
  destruct (worker_ends AUTH_TOKEN research_request_id (Some s) rng net
              (S (Z.to_nat Tasks.task_max_retries)) 0 0%nat) as (run & E);
    [lia | unfold Tasks.task_max_retries; lia |].
  exists run. split; [exact E|].
  destruct (worker_trace AUTH_TOKEN research_request_id _ _ _ _ _ _ _ E)
    as (Early & Ok & Refused & Raised).
  cbn [Nat.add] in Early, Ok, Refused, Raised.
  split; [intros i Hi; apply Early; lia|].
  split; [|intros x Hx; apply (Ok x Hx)].
  split; [intros Hx; apply (Ok _ Hx)|].
  intros Last. destruct (Tasks.outcome run) as [[x|]|e] eqn:O.
  - destruct (Ok x eq_refl) as (-> & _). reflexivity.
  - destruct (Refused eq_refl) as (Len & All).
    destruct (All (Nat.pred (List.length (Tasks.posted run)))) as (c & E' & Ne);
      [lia|]. rewrite Last in E'. congruence.
  - destruct (Raised e eq_refl) as ([L|L] & _); rewrite L in Last; discriminate.
Qed.

(** X4. How a task ends. Without a text ([None]) it raises [TypeError]
    at once, with no POST and no retry. On a [str] it POSTs at least
    once and ends by returning success or "failed", or by raising
    [ConnectionError], the other exception or [MaxRetriesExceededError]:
    a [Retry] never leaves the worker, and [TypeError] is raised for no
    [str]. *)
Theorem run_outcomes (text : option str) (rng : Z -> Tasks.draws)
    (net : nat -> post_outcome) :
  exists run,
    Tasks.delay AUTH_TOKEN research_request_id text rng net = Some run
    /\ match text with
       | None =>
           Tasks.outcome run = Raise TypeError
           /\ Tasks.posted run = [] /\ Tasks.countdowns run = []
       | Some _ =>
           Tasks.posted run <> []
           /\ In (Tasks.outcome run)
                 [Ret (Tasks.Success research_request_id); Ret Tasks.Failed;
                  Raise ConnectionError; Raise OtherException;
                  Raise MaxRetriesExceededError]
       end.
Proof.
  destruct text as [s|].
  - destruct (analyze_text_chronology_total s) as (y & m & A & _).
    destruct (worker_ends AUTH_TOKEN research_request_id (Some s) rng net
                (S (Z.to_nat Tasks.task_max_retries)) 0 0%nat) as (run & E);
      [lia | unfold Tasks.task_max_retries; lia |].
    exists run. split; [exact E|].
    destruct (worker_facts AUTH_TOKEN research_request_id s (y, m) rng net
                _ A _ _ _ E) as (_ & NE & _).
    split; [exact NE|].
    destruct (worker_trace AUTH_TOKEN research_request_id _ _ _ _ _ _ _ E)
      as (_ & Ok & _ & Raised).
    destruct (Tasks.outcome run) as [[x|]|e].
    + destruct (Ok x eq_refl) as (-> & _). simpl. tauto.
    + simpl. tauto.
    + destruct (Raised e eq_refl) as (_ & [-> | [-> | ->]]); simpl; tauto.
  - eexists. split; [reflexivity|]. cbn. auto.
Qed.

(** X5. A result with a matched count other than 0 is delivered as it
    is: every body of the run carries the estimator's year, that year
    plus 50 and the estimator's count, whatever is drawn. *)
Theorem nonzero_result_is_forwarded (text : option str) (year matched : Z)
    (rng : Z -> Tasks.draws) (net : nat -> post_outcome) :
  analyze_text_chronology text = Ret (year, matched) ->
  matched <> 0 ->
  exists run,
    Tasks.delay AUTH_TOKEN research_request_id text rng net = Some run
    /\ Forall (fun d => d = {| rd_research_request_id := research_request_id;
                               result_from_year := year;
                               result_to_year := year + 50;
                               rd_matched_layers := matched;
                               rd_auth_token := AUTH_TOKEN |})
              (Tasks.posted run).
Proof.
  intros A NZ. destruct text as [s|]; [|discriminate].
  destruct (worker_ends AUTH_TOKEN research_request_id (Some s) rng net
              (S (Z.to_nat Tasks.task_max_retries)) 0 0%nat) as (run & E);
    [lia | unfold Tasks.task_max_retries; lia |].
  exists run. split; [exact E|].
  destruct (worker_facts AUTH_TOKEN research_request_id s (year, matched) rng net
              _ A _ _ _ E) as (F & _).
  apply (Forall_impl _ (P := fun d => exists draws,
           d = data_of AUTH_TOKEN research_request_id
                       (Tasks.fallback draws (year, matched)))); [|exact F].
  intros d (draws & ->). unfold Tasks.fallback.
  apply Z.eqb_neq in NZ. rewrite NZ. reflexivity.
Qed.

(** X6. After a first POST that fails to connect the task is executed
    again from its first statement, so the fallback is drawn again: the
    first body comes from the draws of the first execution and the
    second body from the draws of the second, and the two bodies differ
    whenever the two fallbacks do. *)
Theorem retry_draws_again (s : str) (calculated : Z * Z)
    (rng : Z -> Tasks.draws) (net : nat -> post_outcome) :
  analyze_text_chronology (Some s) = Ret calculated ->
  net 0%nat = ConnectionFailed ->
  exists run rest,
    Tasks.delay AUTH_TOKEN research_request_id (Some s) rng net = Some run
    /\ Tasks.posted run
       = data_of AUTH_TOKEN research_request_id
                 (Tasks.fallback (rng 0) calculated)
         :: data_of AUTH_TOKEN research_request_id
                    (Tasks.fallback (rng 1) calculated)
         :: rest
    /\ (Tasks.fallback (rng 0) calculated <> Tasks.fallback (rng 1) calculated ->
        data_of AUTH_TOKEN research_request_id
                (Tasks.fallback (rng 0) calculated)
        <> data_of AUTH_TOKEN research_request_id
                   (Tasks.fallback (rng 1) calculated)).
Proof.
  intros A N0.
  destruct (worker_ends AUTH_TOKEN research_request_id (Some s) rng net
              (S (Z.to_nat Tasks.task_max_retries)) 0 0%nat) as (run & E);
    [lia | unfold Tasks.task_max_retries; lia |].
  unfold Tasks.delay. rewrite E.
  change (Z.to_nat Tasks.task_max_retries) with 3%nat in E.
  assert (X1 : Tasks.calculate_chrono_async AUTH_TOKEN 0 research_request_id
                 (Some s) (rng 0) net 0%nat
               = (Raise (Retry 5),
                  [data_of AUTH_TOKEN research_request_id
                           (Tasks.fallback (rng 0) calculated)], 1%nat)).
  { rewrite (calculate_chrono_async_posts _ _ _ _ _ _ _ _ A),
      (post_loop_connection_failed _ _ _ _ N0). reflexivity. }
  rewrite (worker_retries _ _ _ _ _ _ _ _ _ _ _ X1) in E.
  destruct (Tasks.worker 3 AUTH_TOKEN (0 + 1) research_request_id (Some s)
              rng net 1) as [later|] eqn:W; [|discriminate].
  injection E as <-.
  destruct (worker_first_body _ _ _ _ _ _ _ _ A W) as (rest & R).
  eexists. exists rest. split; [reflexivity|]. cbn [Tasks.posted].
  rewrite R. split; [reflexivity|].
  intros Ne E'. apply Ne.
  destruct (Tasks.fallback (rng 0) calculated) as [y0 m0].
  destruct (Tasks.fallback (rng 1) calculated) as [y1 m1].
  unfold data_of in E'. cbn [fst snd] in E'. injection E' as -> _ ->.
  reflexivity.
Qed.
End TaskProperties.

(** ** Lookups after an assignment *)

Lemma dict_get_set_same {V} (d : list (Z * V)) (k : Z) (v default : V) :
  dict_get Z.eqb (dict_set Z.eqb d k v) k default = v.
Proof.
  induction d as [|[k' v'] d IH]; simpl.
  - rewrite Z.eqb_refl. reflexivity.
  - destruct (k' =? k) eqn:E; simpl; rewrite E; [reflexivity | assumption].
Qed.

Lemma dict_get_set_other {V} (d : list (Z * V)) (k k0 : Z) (v default : V) :
  k0 <> k ->
  dict_get Z.eqb (dict_set Z.eqb d k v) k0 default = dict_get Z.eqb d k0 default.
Proof.
  intros Ne. induction d as [|[k' v'] d IH]; simpl.
  - apply Z.eqb_neq in Ne. rewrite Z.eqb_sym, Ne. reflexivity.
  - destruct (k' =? k) eqn:E; simpl.
    + apply Z.eqb_eq in E. subst k'.
      assert (E' : (k =? k0) = false) by (apply Z.eqb_neq; congruence).
      rewrite E'. reflexivity.
    + rewrite IH. reflexivity.
Qed.

Lemma str_get_set_same (d : list (str * Z)) (k : str) (v default : Z) :
  dict_get str_eqb (dict_set str_eqb d k v) k default = v.
Proof.
  induction d as [|[k' v'] d IH]; simpl.
  - rewrite str_eqb_refl. reflexivity.
  - destruct (str_eqb k' k) eqn:E; simpl; rewrite E; [reflexivity | assumption].
Qed.

Lemma str_get_set_other (d : list (str * Z)) (k k0 : str) (v default : Z) :
  k0 <> k ->
  dict_get str_eqb (dict_set str_eqb d k v) k0 default
  = dict_get str_eqb d k0 default.
Proof.
  intros Ne. induction d as [|[k' v'] d IH]; simpl.
  - destruct (str_eqb k k0) eqn:E; [|reflexivity].
    apply str_eqb_eq in E. congruence.
  - destruct (str_eqb k' k) eqn:E; simpl.
    + apply str_eqb_eq in E. subst k'.
      destruct (str_eqb k k0) eqn:E'; [|reflexivity].
      apply str_eqb_eq in E'. congruence.
    + rewrite IH. reflexivity.
Qed.

Lemma dict_set_keys_NoDup (d : list (str * Z)) (k : str) (v : Z) :
  NoDup (map fst d) -> NoDup (map fst (dict_set str_eqb d k v)).
Proof.
  induction d as [|[k' v'] d IH]; simpl; intros N.
  - constructor; [intros [] | constructor].
  - inversion N as [|? ? Notin N']. subst.
    destruct (str_eqb k' k) eqn:E; simpl; [assumption|].
    constructor; [|apply IH; assumption].
    intros Hin. apply dict_set_keys in Hin. destruct Hin as [Hin| ->];
      [tauto|]. rewrite str_eqb_refl in E. discriminate.
Qed.

(** X7. [Counter(words)] maps every word to the number of its
    occurrences in [words] (0 for a word that does not occur), and holds
    each key once. *)
Theorem Counter_counts_occurrences (words : list str) :
  (forall w, dict_get str_eqb (Counter words) w 0 = occurrences w words)
  /\ NoDup (map fst (Counter words))
  /\ (forall w, In w (map fst (Counter words)) <-> In w words).
Proof.
  unfold Counter.
  set (f := fun (c : list (str * Z)) w =>
              dict_set str_eqb c w (dict_get str_eqb c w 0 + 1)).
  assert (G : forall ws c,
             (forall w, dict_get str_eqb (fold_left f ws c) w 0
                        = dict_get str_eqb c w 0 + occurrences w ws)
             /\ (NoDup (map fst c) -> NoDup (map fst (fold_left f ws c)))
             /\ (forall w, In w (map fst c) \/ In w ws ->
                           In w (map fst (fold_left f ws c)))).
  { induction ws as [|x ws IH]; intros c; simpl.
    - split; [intros; lia|]. split; [tauto|]. intros w [Hw|[]]. assumption.
    - destruct (IH (f c x)) as (Get & Nd & Keys).
      split; [|split].
      + intros w. rewrite Get. unfold f.
        destruct (str_eqb x w) eqn:E.
        * apply str_eqb_eq in E. subst w. rewrite str_get_set_same. lia.
        * rewrite str_get_set_other; [lia|].
          intros ->. rewrite str_eqb_refl in E. discriminate.
      + intros N. apply Nd. apply dict_set_keys_NoDup. assumption.
      + intros w Hw. apply Keys.
        assert (Kx : In x (map fst (f c x))).
        { unfold f. clear. generalize (dict_get str_eqb c x 0 + 1). intros v.
          induction c as [|[k' v'] c IHc]; simpl; [tauto|].
          destruct (str_eqb k' x) eqn:E; simpl; [|tauto].
          apply str_eqb_eq in E. tauto. }
        assert (Kc : forall k, In k (map fst c) -> In k (map fst (f c x))).
        { unfold f. clear. generalize (dict_get str_eqb c x 0 + 1). intros v k.
          induction c as [|[k' v'] c IHc]; simpl; [tauto|].
          destruct (str_eqb k' x); simpl; tauto. }
        destruct Hw as [Hw|[->|Hw]]; auto. }
  destruct (G words []) as (Get & Nd & Keys).
  split; [intros w; rewrite Get; reflexivity|].
  split; [apply Nd; constructor|].
  intros w. split; [apply Counter_keys | intros Hw; apply Keys; tauto].
Qed.

(** ** The tokenizer *)

Lemma runs_tokens (p : N -> bool) (s : str) :
  forall acc,
    forallb p acc = true ->
    (forall w, In w (runs p acc s) -> w <> [] /\ forallb p w = true)
    /\ (List.length (List.concat (runs p acc s)) <= List.length acc + List.length s)%nat.
Proof.
  assert (Rev : forall acc, forallb p acc = true -> forallb p (rev acc) = true).
  { intros acc Hacc. apply forallb_forall. intros c Hc.
    apply in_rev in Hc. rewrite forallb_forall in Hacc. auto. }
  induction s as [|c s IH]; intros acc Hacc; simpl.
  - destruct acc as [|a acc]; simpl.
    + split; [intros w []|lia].
    + split.
      * intros w [<-|[]]. split; [|apply (Rev (a :: acc) Hacc)].
        intros E. apply (f_equal (@List.length N)) in E.
        rewrite length_app in E. simpl in E. lia.
      * rewrite app_nil_r, length_app, length_rev. simpl. lia.
  - destruct (p c) eqn:Pc.
    + destruct (IH (c :: acc)) as (Tok & Len); [simpl; rewrite Pc; assumption|].
      split; [assumption | simpl in Len; lia].
    + destruct (IH []) as (Tok & Len); [reflexivity|].
      destruct acc as [|a acc].
      * split; [assumption | simpl in *; lia].
      * split.
        -- intros w [<-|Hw]; [|apply Tok; assumption].
           split; [|apply (Rev (a :: acc) Hacc)].
           intros E. apply (f_equal (@List.length N)) in E.
           simpl in E. rewrite length_app in E. simpl in E. lia.
        -- simpl List.concat. rewrite length_app, length_app, length_rev.
           simpl in *. lia.
Qed.

(** X8. Every token [re.findall(r'\b\w+\b', s)] returns is a non-empty
    run of word characters, and the tokens together are no longer than
    [s]; so there are at most [len(s)] tokens. *)
Theorem findall_words_tokens `{Unicode} (s : str) :
  (forall w, In w (findall_words s) -> w <> [] /\ forallb isword w = true)
  /\ (List.length (List.concat (findall_words s)) <= List.length s)%nat
  /\ len (findall_words s) <= len s.
Proof.
  unfold findall_words.
  destruct (runs_tokens isword s [] eq_refl) as (Tok & Len).
  split; [assumption|]. split; [simpl in Len; assumption|].
  unfold len. apply Nat2Z.inj_le.
  apply Nat.le_trans with (List.length (List.concat (runs isword [] s)));
    [|simpl in Len; assumption].
  clear Len. induction (runs isword [] s) as [|w ws IHw]; simpl; [lia|].
  destruct (Tok w) as (NE & _); [left; reflexivity|].
  rewrite length_app. destruct w; [congruence|]. simpl.
  assert (List.length ws <= List.length (List.concat ws))%nat; [|lia].
  apply IHw. intros w' Hw'. apply Tok. right. assumption.
Qed.

(** ** The estimator without a signal *)

Lemma filter_none {A} (p : A -> bool) (l : list A) :
  len (filter p l) = 0 -> forall x, In x l -> p x = false.
Proof.
  unfold len. induction l as [|a l IH]; simpl; [tauto|].
  destruct (p a) eqn:Pa; simpl; [lia|].
  intros E x [<-|Hx]; auto.
Qed.

(** With no word of a vocabulary among [words], every similarity score
    is 0.0. *)
Lemma similarity_scores_no_word (words : list str) :
  (forall w, In w words -> in_some_vocabulary w = false) ->
  similarity_scores (Counter words)
  = [(1300, 0%float); (1500, 0%float); (1700, 0%float); (1900, 0%float)].
Proof.
  intros NoWord.
  assert (Zero : forall year, In year anchors ->
            era_score (Counter words) year = 0%float).
  { intros year Hy. unfold era_score.
    rewrite safe_cosine_similarity_disjoint; [reflexivity|].
    intros x Hx Hin. apply Counter_keys in Hx.
    rewrite map_map in Hin. simpl in Hin. rewrite map_id in Hin.
    assert (V : in_some_vocabulary x = true).
    { apply in_some_vocabulary_spec. exists year, (vocabulary year).
      split; [apply vocabulary_entry; assumption | assumption]. }
    rewrite (NoWord x Hx) in V. discriminate. }
  rewrite similarity_scores_eq. unfold anchors. simpl map.
  rewrite !Zero by (unfold anchors; simpl; tauto). reflexivity.
Qed.

(** X9. When the estimator reports no match on a [str], the year is
    never 1700. It is 1500 exactly when a guard fired (trimmed length
    below 5, or no word), and 1900 exactly when the text passed the
    guards with a readability above 70 (and not below 40); in every
    other case it is 1300. *)
Theorem zero_match_year `{Unicode} (s : str) (year : Z) :
  analyze_text_chronology (Some s) = Ret (year, 0) ->
  year <> 1700
  /\ In year [1300; 1500; 1900]
  /\ (year = 1500 <-> len (strip s) < 5 \/ findall_words (lower s) = [])
  /\ (year = 1900
      <-> 5 <= len (strip s)
          /\ findall_words (lower s) <> []
          /\ (safe_calculate_flesch_reading_ease (Some s) <? 40)%float = false
          /\ (70 <? safe_calculate_flesch_reading_ease (Some s))%float = true).
Proof.
  intros A.
  destruct (too_short (Some s) 5) eqn:G.
  - assert (L : len (strip s) < 5)
      by (rewrite too_short_lt in G by lia; apply Z.ltb_lt; assumption).
    unfold analyze_text_chronology in A. rewrite G in A. injection A as <-.
    split; [discriminate|]. split; [simpl; tauto|].
    split; [tauto|]. split; [discriminate | intros (L' & _); lia].
  - assert (L : 5 <= len (strip s))
      by (rewrite too_short_lt in G by lia; apply Z.ltb_ge; assumption).
    destruct (findall_words (lower s)) as [|w ws] eqn:Ws.
    + unfold analyze_text_chronology in A. rewrite G in A. cbv zeta in A.
      rewrite Ws in A. injection A as <-.
      split; [discriminate|]. split; [simpl; tauto|].
      split; [tauto|]. split; [discriminate | intros (_ & W & _); congruence].
    + destruct (analyze_text_chronology_scored s G) as (y & M & E);
        [rewrite Ws; discriminate|].
      rewrite A in E. injection E as <- Zero. symmetry in Zero.
      pose proof (similarity_scores_no_word _ (filter_none _ _ Zero)) as S0.
      unfold score_map in M. rewrite S0 in M. unfold adjust_scores in M.
      rewrite <- Ws.
      destruct (safe_calculate_flesch_reading_ease (Some s) <? 40)%float eqn:R40;
        [|destruct (70 <? safe_calculate_flesch_reading_ease (Some s))%float
            eqn:R70];
        vm_compute in M; injection M as <-;
        (split; [discriminate|]); (split; [simpl; tauto|]); rewrite Ws.
      * split; [split; [discriminate | intros [L'|W]; [lia | discriminate]]|].
        split; [discriminate | intros (_ & _ & F & _); discriminate].
      * split; [split; [discriminate | intros [L'|W]; [lia | discriminate]]|].
        split; [intros _ | reflexivity].
        split; [assumption|]. split; [discriminate|]. split; reflexivity.
      * split; [split; [discriminate | intros [L'|W]; [lia | discriminate]]|].
        split; [discriminate | intros (_ & _ & _ & F); discriminate].
Qed.

Lemma zero_match_year_witness :
  1900 <> 1700
  /\ In 1900 [1300; 1500; 1900]
  /\ (1900 = 1500 <-> len (strip (lit "hello world")) < 5
                      \/ findall_words (lower (lit "hello world")) = [])
  /\ (1900 = 1900
      <-> 5 <= len (strip (lit "hello world"))
          /\ findall_words (lower (lit "hello world")) <> []
          /\ (safe_calculate_flesch_reading_ease (Some (lit "hello world")) <? 40)%float
             = false
          /\ (70 <? safe_calculate_flesch_reading_ease (Some (lit "hello world")))%float
             = true).
Proof.
  apply (zero_match_year (lit "hello world") 1900).
  vm_compute. reflexivity.
Defined.

(** X10. What the readability adjustment does to the scores, read by
    lookups, on any score dict. A readability below 40 adds 500 to the
    entry of 1300 and 300 to the entry of 1500; otherwise a readability
    above 70 adds 500 to the entry of 1900; every other entry, the one
    of 1700 among them, is left as it was, and so is the whole dict in
    the band from 40 to 70. *)
Theorem adjust_scores_lookups (readability : float) (scores : list (Z * float)) :
  (forall year default,
      year <> 1300 -> year <> 1500 -> year <> 1900 ->
      dict_get Z.eqb (adjust_scores readability scores) year default
      = dict_get Z.eqb scores year default)
  /\ ((readability <? 40)%float = true ->
      dict_get Z.eqb (adjust_scores readability scores) 1300 0%float
      = (dict_get Z.eqb scores 1300%Z 0 + 500)%float
      /\ dict_get Z.eqb (adjust_scores readability scores) 1500 0%float
         = (dict_get Z.eqb scores 1500%Z 0 + 300)%float
      /\ dict_get Z.eqb (adjust_scores readability scores) 1900 0%float
         = dict_get Z.eqb scores 1900 0%float)
  /\ ((readability <? 40)%float = false ->
      (70 <? readability)%float = true ->
      dict_get Z.eqb (adjust_scores readability scores) 1300 0%float
      = dict_get Z.eqb scores 1300 0%float
      /\ dict_get Z.eqb (adjust_scores readability scores) 1500 0%float
         = dict_get Z.eqb scores 1500 0%float
      /\ dict_get Z.eqb (adjust_scores readability scores) 1900 0%float
         = (dict_get Z.eqb scores 1900%Z 0 + 500)%float)
  /\ ((readability <? 40)%float = false ->
      (70 <? readability)%float = false ->
      adjust_scores readability scores = scores).
Proof.
  unfold adjust_scores. split; [|split; [|split]].
  - intros year default N1 N2 N3.
    destruct (readability <? 40)%float; [|destruct (70 <? readability)%float];
      rewrite ?dict_get_set_other by assumption; reflexivity.
  - intros ->. split; [|split].
    + rewrite dict_get_set_other by discriminate. apply dict_get_set_same.
    + rewrite dict_get_set_same, dict_get_set_other by discriminate.
      reflexivity.
    + rewrite !dict_get_set_other by discriminate. reflexivity.
  - intros -> ->. split; [|split].
    + rewrite dict_get_set_other by discriminate. reflexivity.
    + rewrite dict_get_set_other by discriminate. reflexivity.
    + apply dict_get_set_same.
  - intros -> ->. reflexivity.
Qed.

Lemma adjust_scores_lookups_witness :
  dict_get Z.eqb
    (adjust_scores 20 (similarity_scores (Counter [lit "thou"; lit "data"])))
    1300 0%float
  = (dict_get Z.eqb (similarity_scores (Counter [lit "thou"; lit "data"])) 1300%Z 0
     + 500)%float.
Proof.
  destruct (adjust_scores_lookups
              20 (similarity_scores (Counter [lit "thou"; lit "data"])))
    as (_ & Low & _).
  apply Low. reflexivity.
Defined.

(** ** The synchronous front end, case by case *)

Section MainProperties.
Context `{Unicode}.

Lemma str_eqb_neq (a b : str) : a <> b -> str_eqb a b = false.
Proof.
  intros Ne. destruct (str_eqb a b) eqn:E; [|reflexivity].
  apply str_eqb_eq in E. congruence.
Qed.

(** A text that is not blank is a [str], and not the empty one. *)
Lemma not_blank_str (text : option str) :
  Main.blank text = false -> exists s, text = Some s /\ strip s <> [].
Proof.
  destruct text as [s|]; [|discriminate]. simpl.
  destruct s as [|c s]; [discriminate|].
  destruct (strip (c :: s)) eqn:E; [discriminate|].
  intros _. exists (c :: s). split; [reflexivity|]. rewrite E. discriminate.
Qed.

(** X11. The synchronous endpoint has three outcomes and no other. A
    wrong token is answered 403 and a blank text "skipped", both without
    a POST, and the token is looked at first. Any other request is
    answered "success" with an anchor year, after exactly one POST, whose
    body carries the request's id, that year, the year plus 50, the
    count and the expected token. The answer "error" is given to no
    request: the estimator raises on no text that is not blank. *)
Theorem main_answers (AUTH_TOKEN_EXPECTED : str)
    (collector : result_data -> post_outcome) (request : Main.ChronoRequest) :
  (Main.auth_token request <> AUTH_TOKEN_EXPECTED
   /\ Main.calculate_chrono AUTH_TOKEN_EXPECTED collector request
      = (Main.HTTPException 403, [], []))
  \/ (Main.auth_token request = AUTH_TOKEN_EXPECTED
      /\ Main.blank (Main.text_for_analysis request) = true
      /\ Main.calculate_chrono AUTH_TOKEN_EXPECTED collector request
         = (Main.Body {| Main.status := "skipped"; Main.year := None;
                         Main.matched_layers := None;
                         Main.error := Some "no text"%string |}, [], []))
  \/ (Main.auth_token request = AUTH_TOKEN_EXPECTED
      /\ Main.blank (Main.text_for_analysis request) = false
      /\ exists year matched,
           analyze_text_chronology (Main.text_for_analysis request)
           = Ret (year, matched)
           /\ In year anchors
           /\ Main.calculate_chrono AUTH_TOKEN_EXPECTED collector request
              = (Main.Body {| Main.status := "success";
                              Main.year := Some year;
                              Main.matched_layers := Some matched;
                              Main.error := None |},
                 [data_of AUTH_TOKEN_EXPECTED (Main.research_request_id request)
                          (year, matched)],
                 [Main.send (collector
                      (data_of AUTH_TOKEN_EXPECTED
                               (Main.research_request_id request)
                               (year, matched)))])).
Proof.
  unfold Main.calculate_chrono.
  destruct (list_eq_dec N.eq_dec (Main.auth_token request) AUTH_TOKEN_EXPECTED)
    as [T|T].
  - right. rewrite T, str_eqb_refl. cbn [negb].
    destruct (Main.blank (Main.text_for_analysis request)) eqn:B.
    + left. auto.
    + right. split; [reflexivity|]. split; [reflexivity|].
      destruct (not_blank_str _ B) as (s & -> & _).
      destruct (analyze_text_chronology_total s) as (y & m & A & Hy).
      exists y, m. rewrite A. auto.
  - left. rewrite (str_eqb_neq _ _ T). auto.
Qed.

(** X12. A text that is not blank but has fewer than 5 characters once
    trimmed is not skipped: with the expected token it is answered
    "success" with the default year 1500 and 0 matches, and the body
    POSTed to the collector carries 1500, 1550 and 0. *)
Theorem short_text_is_answered_with_default (AUTH_TOKEN_EXPECTED : str)
    (collector : result_data -> post_outcome) (request : Main.ChronoRequest)
    (s : str) :
  Main.auth_token request = AUTH_TOKEN_EXPECTED ->
  Main.text_for_analysis request = Some s ->
  0 < len (strip s) < 5 ->
  fst (Main.calculate_chrono AUTH_TOKEN_EXPECTED collector request)
  = (Main.Body {| Main.status := "success"; Main.year := Some 1500;
                  Main.matched_layers := Some 0; Main.error := None |},
     [{| rd_research_request_id := Main.research_request_id request;
         result_from_year := 1500;
         result_to_year := 1550;
         rd_matched_layers := 0;
         rd_auth_token := AUTH_TOKEN_EXPECTED |}]).
Proof.
  intros T E [Pos Short]. unfold Main.calculate_chrono.
  rewrite T, str_eqb_refl, E. cbn [negb].
  assert (B : Main.blank (Some s) = false).
  { simpl. destruct s as [|c s]; [rewrite strip_nil in Pos; unfold len in Pos;
                                   simpl in Pos; lia|].
    destruct (strip (c :: s)); [unfold len in Pos; simpl in Pos; lia|].
    reflexivity. }
  rewrite B.
  assert (A : analyze_text_chronology (Some s) = Ret (1500, 0)).
  { unfold analyze_text_chronology.
    rewrite too_short_true by (lia || assumption). reflexivity. }
  rewrite A. reflexivity.
Qed.

(** ** The view and the task it launches *)

(** X13. The view has four outcomes and no other. Data that is not
    valid is answered 400, and a wrong token 403. With the expected
    token, a text that is missing or blank is answered 400 "skipped". In
    these three cases nothing is launched. With the expected token and a
    text that is not blank the view answers 202 for the request's id and
    launches the task on the request's id, text and purpose: so a task
    is launched exactly when the data is valid, the token is the
    expected one and the text is not blank. A task the view launched,
    run by a worker, ends, POSTs at least once, never raises
    [TypeError], and each body it POSTs carries the request's id, the
    expected token, an anchor year and that year plus 50. *)
Theorem view_launches_runnable_tasks (AUTH_TOKEN : str)
    (validated : option Views.validated_data) :
  (validated = None
   /\ Views.calculate_chrono AUTH_TOKEN validated = (Views.Invalid, None))
  \/ (exists data,
        validated = Some data
        /\ Views.auth_token data <> AUTH_TOKEN
        /\ Views.calculate_chrono AUTH_TOKEN validated
           = (Views.Forbidden, None))
  \/ (exists data,
        validated = Some data
        /\ Views.auth_token data = AUTH_TOKEN
        /\ Main.blank (Views.text_for_analysis data) = true
        /\ Views.calculate_chrono AUTH_TOKEN validated
           = (Views.Skipped, None))
  \/ (exists data text,
        validated = Some data
        /\ Views.auth_token data = AUTH_TOKEN
        /\ Views.text_for_analysis data = Some text
        /\ Main.blank (Some text) = false
        /\ Views.calculate_chrono AUTH_TOKEN validated
           = (Views.Processing (Views.research_request_id data),
              Some {| Views.launch_request_id := Views.research_request_id data;
                      Views.launch_text := text;
                      Views.launch_purpose := Views.purpose data |})
        /\ forall rng net,
             exists run,
               Tasks.delay AUTH_TOKEN (Views.research_request_id data)
                           (Some text) rng net = Some run
               /\ Tasks.posted run <> []
               /\ Tasks.outcome run <> Raise TypeError
               /\ Forall (fun d =>
                            rd_research_request_id d
                            = Views.research_request_id data
                            /\ rd_auth_token d = AUTH_TOKEN
                            /\ In (result_from_year d) anchors
                            /\ result_to_year d = result_from_year d + 50)
                         (Tasks.posted run)).
Proof.
  unfold Views.calculate_chrono.
  destruct validated as [data|]; [|left; split; reflexivity].
  right.
  destruct (list_eq_dec N.eq_dec (Views.auth_token data) AUTH_TOKEN) as [T|T].
  - right. rewrite T, str_eqb_refl. cbn [negb]. cbv zeta.
    destruct (Views.text_for_analysis data) as [t|] eqn:Tx.
    + destruct (Main.blank (Some t)) eqn:B.
      * left. exists data. rewrite Tx. auto.
      * right. exists data, t.
        split; [reflexivity|]. split; [assumption|]. split; [assumption|].
        split; [assumption|]. split; [reflexivity|].
        intros rng net.
        destruct (analyze_text_chronology_total t) as (y & m & A & Hy).
        destruct (worker_ends AUTH_TOKEN (Views.research_request_id data)
                    (Some t) rng net (S (Z.to_nat Tasks.task_max_retries))
                    0 0%nat) as (run & E);
          [lia | unfold Tasks.task_max_retries; lia |].
        exists run. split; [exact E|].
        destruct (worker_facts AUTH_TOKEN (Views.research_request_id data)
                    t (y, m) rng net _ A _ _ _ E) as (F & NE & _).
        split; [exact NE|]. split.
        -- intros O.
           destruct (worker_trace AUTH_TOKEN (Views.research_request_id data)
                       _ _ _ _ _ _ _ E) as (_ & _ & _ & Raised).
           destruct (Raised _ O) as (_ & [K|[K|K]]); discriminate.
        -- apply (Forall_impl _ (P := fun d => exists draws,
                    d = data_of AUTH_TOKEN (Views.research_request_id data)
                                (Tasks.fallback draws (y, m)))); [|exact F].
           intros d (draws & ->). cbn.
           split; [reflexivity|]. split; [reflexivity|].
           split; [apply fallback_year; assumption | reflexivity].
    + left. exists data. rewrite Tx. auto.
  - left. exists data. rewrite (str_eqb_neq _ _ T). auto.
Qed.
End MainProperties.

Lemma short_text_is_answered_with_default_witness :
  fst (Main.calculate_chrono sample_token (fun _ => Responded 200)
                             (sample_request " ab "))
  = (Main.Body {| Main.status := "success"; Main.year := Some 1500;
                  Main.matched_layers := Some 0; Main.error := None |},
     [{| rd_research_request_id := 7;
         result_from_year := 1500;
         result_to_year := 1550;
         rd_matched_layers := 0;
         rd_auth_token := sample_token |}]).
Proof.
  apply (short_text_is_answered_with_default sample_token
           (fun _ => Responded 200) (sample_request " ab ") (lit " ab ")).
  - reflexivity.
  - reflexivity.
  - vm_compute. split; reflexivity.
Defined.

(** ** The health checks *)

(** X14. The health answer shows the first four characters of the token
    and nothing of the rest: two tokens that agree on their first four
    characters give the same answer. A token of four characters or
    fewer is shown whole. *)
Theorem health_check_shows_four (MAIN_SERVICE_URL token1 token2 : str) :
  (slice_to 4 token1 = slice_to 4 token2 ->
   health_check MAIN_SERVICE_URL token1 = health_check MAIN_SERVICE_URL token2)
  /\ (len token1 <= 4 ->
      health_token (health_check MAIN_SERVICE_URL token1) = token1 ++ lit "...")
  /\ len (health_token (health_check MAIN_SERVICE_URL token1))
     = Z.min 4 (len token1) + 3.
Proof.
  unfold health_check, slice_to, len. cbn [health_token]. split; [|split].
  - intros ->. reflexivity.
  - intros L. rewrite firstn_all2 by lia. reflexivity.
  - rewrite length_app, length_firstn.
    change (List.length (lit "...")) with 3%nat. lia.
Qed.

Lemma health_check_shows_four_witness :
  health_check (lit "http://127.0.0.1:8080") (lit "111517")
  = health_check (lit "http://127.0.0.1:8080") (lit "1115")
  /\ health_token (health_check (lit "http://127.0.0.1:8080") (lit "1115"))
     = lit "1115...".
Proof.
  destruct (health_check_shows_four (lit "http://127.0.0.1:8080")
              (lit "111517") (lit "1115")) as (Same & _).
  destruct (health_check_shows_four (lit "http://127.0.0.1:8080")
              (lit "1115") (lit "1115")) as (_ & Whole & _).
  split; [apply Same; reflexivity | apply Whole; vm_compute; discriminate].
Defined.

(** ** The task's properties at concrete inputs *)

Lemma refusals_end_in_failed_witness :
  observed (Tasks.delay sample_token 7 (Some (lit "thou hath dost verily"))
                        sample_draws (fun _ => Responded 500))
  = Some (Ret Tasks.Failed, 3%nat, []).
Proof.
  apply (refusals_end_in_failed sample_token 7 (lit "thou hath dost verily")
           sample_draws (fun _ => Responded 500)).
  intros i _. exists 500. split; [reflexivity | discriminate].
Defined.

Lemma nonzero_result_is_forwarded_witness :
  exists run,
    Tasks.delay sample_token 7 (Some (lit "thou hath dost verily"))
                sample_draws (fails_once_then 200) = Some run
    /\ Forall (fun d => d = {| rd_research_request_id := 7;
                               result_from_year := 1300;
                               result_to_year := 1300 + 50;
                               rd_matched_layers := 4;
                               rd_auth_token := sample_token |})
              (Tasks.posted run).
Proof.
  apply (nonzero_result_is_forwarded sample_token 7
           (Some (lit "thou hath dost verily")) 1300 4).
  - vm_compute. reflexivity.
  - discriminate.
Defined.

Lemma retry_draws_again_witness :
  exists run rest,
    Tasks.delay sample_token 7 (Some (lit "hello world")) changing_draws
                (fails_once_then 200) = Some run
    /\ Tasks.posted run
       = data_of sample_token 7 (1300, 1) :: data_of sample_token 7 (1500, 2)
         :: rest.
Proof.
  destruct (retry_draws_again sample_token 7 (lit "hello world") (1900, 0)
              changing_draws (fails_once_then 200))
    as (run & rest & E & P & _).
  - vm_compute. reflexivity.
  - reflexivity.
  - exists run, rest. split; [exact E | exact P].
Defined.

(** The bound of 9 POSTs is reached: a refusal and then a connection
    failure in each of the first three executions, and three refusals in
    the fourth. *)
Example nine_posts_are_reached :
  observed (Tasks.delay sample_token 7 (Some (lit "thou hath dost verily"))
              sample_draws
              (fun i => if Nat.eqb i 1 || Nat.eqb i 3 || Nat.eqb i 5
                        then ConnectionFailed else Responded 500))
  = Some (Ret Tasks.Failed, 9%nat, [5; 5; 5]).
Proof. vm_compute. reflexivity. Qed.
